(** * Fitness Fusion: derived metrics, session store and AI orchestration

    A shallow embedding of the computational core of the Fitness Fusion
    client: the calorie-target, BMI, streak and badge calculators, the
    in-memory session store of [App], the workout logger (timer, finish,
    plan generation), the nutrition handlers, the coach's send handler,
    onboarding, the dashboard's aggregates and device sync, and the
    service wrappers of [geminiService.ts].

    Conventions of the embedding.
    - A JavaScript [number] that the program stores or adds up is an exact
      rational ([Q]); the values concerned are whole numbers, on which the
      double arithmetic of the sources is exact.  The body-mass index is
      the exception: its quotient is computed in IEEE-754 binary64
      ([Double]), with [NaN] and the infinities.
    - An ISO-8601 timestamp string ([new Date().toISOString()]) is
      represented by the instant it denotes, in milliseconds since the
      epoch, and its [YYYY-MM-DD] prefix ([split('T')[0]]) by the number of
      the UTC day that contains the instant.  Local time enters through a
      [TimeZone].
    - Every reading of the clock is an argument of its own.
    - Code that can throw returns a [completion]; [try]/[catch] is
      [try_catch].  [console.error] has no observable effect here and is
      left out.
    - The hosted generation service is outside the program: the outcome of
      the single request an operation awaits is an argument of the
      operation (it either rejects or resolves to a response whose [text]
      may be missing), and so is the behaviour of the built-in
      [JSON.parse]. *)

From Stdlib Require Import ZArith QArith Qround Qabs SpecFloat String Lia Lqa.
From stdpp Require Import base list strings sorting pretty.

Local Open Scope Q_scope.
Set Warnings "-register-all".

(** ** The JavaScript runtime fragment the sources rely on *)

Module Js.

Definition number := Q.

(** [Math.round]: nearest integer, ties towards plus infinity. *)
Definition Math_round (x : number) : Z := Qfloor (x + 0.5).
Definition Math_ceil (x : number) : Z := Qceiling x.
Definition Math_floor (x : number) : Z := Qfloor x.
Definition Math_max (a b : Z) : Z := Z.max a b.

(** [parseFloat(x.toFixed(1))].  [toFixed] picks the integer [n] for which
    [n / 10] is closest to the magnitude of [x], the larger one on a tie,
    and keeps the sign of [x]. *)
Definition toFixed1 (x : number) : number :=
  if Qle_bool 0 x
  then inject_Z (Qfloor (x * 10 + 0.5)) / 10
  else - (inject_Z (Qfloor (- x * 10 + 0.5)) / 10).


(** IEEE-754 binary64, round to nearest even. *)
Module Double.


Definition double := spec_float.



(** The exact value of a finite double. *)
Definition value (x : double) : option number :=
  match x with
  | S754_zero _ => Some 0
  | S754_finite s m e =>
      let z := if s then Zneg m else Zpos m in
      Some (if (e <? 0)%Z then Qmake z (Pos.shiftl 1 (Z.to_N (- e)))
            else inject_Z (z * 2 ^ e))
  | _ => None
  end.

End Double.

(** What [parseFloat(x.toFixed(1))] reads back: the tenths nearest to a
    finite [x], or [x] itself when it is infinite or [NaN]. *)
Inductive reading :=
| Finite (v : number)
| Infinite (negative : bool)
| NotANumber.




(** A time zone, as the two offsets of ECMAScript's [LocalTZA], in
    milliseconds: the one in force at a UTC instant, and the one by which a
    local time value is read back (on a repeated or skipped local hour, the
    offset before the transition). *)
Record TimeZone := {
  offsetAtUtc : Z -> Z;
  offsetAtLocal : Z -> Z
}.

Definition LocalTime (tz : TimeZone) (t : Z) : Z := (t + offsetAtUtc tz t)%Z.
Definition UTC (tz : TimeZone) (t : Z) : Z := (t - offsetAtLocal tz t)%Z.

(** Exceptions that reach a [catch] clause. *)
Inductive exn :=
| Error (message : string)
| TypeError
| SyntaxError
| Rejected (reason : string).

Inductive completion (A : Type) :=
| Normal (a : A)
| Throw (e : exn).
Arguments Normal {A} a.
Arguments Throw {A} e.

#[export] Instance completion_ret : MRet completion := @Normal.
#[export] Instance completion_bind : MBind completion :=
  fun A B f m => match m with Normal a => f a | Throw e => Throw e end.

Definition try_catch {A} (body : completion A) (handler : exn -> completion A)
  : completion A :=
  match body with
  | Normal a => Normal a
  | Throw e => handler e
  end.

(** Values as [JSON.parse] builds them, plus [undefined]. *)
Inductive value :=
| VUndefined
| VNull
| VBool (b : bool)
| VNumber (n : number)
| VString (s : string)
| VArray (items : list value)
| VObject (props : list (string * value)).

Fixpoint own_property (props : list (string * value)) (key : string) : value :=
  match props with
  | [] => VUndefined
  | (k, v) :: rest => if String.eqb k key then v else own_property rest key
  end.

(** Property read [data.key]: a [TypeError] on [undefined] and [null], the
    own property of an object, [undefined] when the object has none.  None
    of the keys read by the sources is a prototype property of a primitive
    or of an array. *)
Definition get (data : value) (key : string) : completion value :=
  match data with
  | VUndefined | VNull => Throw TypeError
  | VObject props => Normal (own_property props key)
  | _ => Normal VUndefined
  end.

(** [!text] for [text : string | undefined]. *)
Definition falsy (text : option string) : bool :=
  match text with
  | None => true
  | Some s => String.eqb s EmptyString
  end.

End Js.
Import Js.

(** ** types.ts *)

Inductive ActivityLevel := SEDENTARY | LIGHT | MODERATE | VERY.

Inductive Gender := Male | Female | Other.

Record WeightEntry := { we_date : Z; we_weight : number }.

Record UserProfile := {
  up_name : string;
  gender : Gender;
  age : number;
  weight : number;
  height : number;
  goal : string;
  activityLevel : ActivityLevel;
  weightHistory : list WeightEntry
}.

Record Exercise := {
  ex_id : string;
  ex_name : string;
  sets : number;
  reps : number;
  ex_weight : number;
  completed : bool
}.

Record WorkoutSession := {
  id : string;
  date : Z;
  name : string;
  exercises : list Exercise;
  durationMinutes : number;
  caloriesBurned : number;
  ws_goal : option string;
  goalAchieved : option bool
}.

(** [MacroNutrients] is declared with four [number] fields; the only
  producer, [analyzeFoodImage], fills them unchecked from parsed JSON, so
  at run time each holds an arbitrary value. *)
Record MacroNutrients := {
  calories : value;
  protein : value;
  carbs : value;
  fat : value
}.

Record MealLog := {
  ml_id : string;
  ml_name : value;
  timestamp : Z;
  macros : MacroNutrients;
  imageUrl : option string
}.

Inductive Role := role_user | role_model.

Record ChatMessage := {
  cm_id : string;
  role : Role;
  text : string;
  cm_timestamp : Z
}.

Inductive ViewState :=
| view_dashboard | view_workout | view_nutrition | view_coach | view_profile.

(** ** components/Dashboard: daily targets *)

Module Dashboard.

Definition multipliers (level : ActivityLevel) : number :=
  match level with
  | SEDENTARY => 1.2
  | LIGHT => 1.375
  | MODERATE => 1.55
  | VERY => 1.725
  end.

Record Targets := { calorieGoal : Z; stepGoal : Z }.

Definition calculateTargets (userProfile : UserProfile) : Targets :=
  let bmr := (10 * weight userProfile) + (6.25 * height userProfile)
             - (5 * age userProfile) in
  let bmr := bmr + (match gender userProfile with Male => 5 | _ => -161 end) in
  let tdee := bmr * multipliers (activityLevel userProfile) in
  let dailyCalorieGoal := tdee in
  let dailyCalorieGoal :=
    if String.eqb (goal userProfile) "Lose Weight"
    then dailyCalorieGoal - 500 else dailyCalorieGoal in
  let dailyCalorieGoal :=
    if String.eqb (goal userProfile) "Build Muscle"
    then dailyCalorieGoal + 300 else dailyCalorieGoal in
  {| calorieGoal := Math_round dailyCalorieGoal; stepGoal := 10000 |}.

End Dashboard.

(** ** components/Profile: badges, streak, BMI *)

Module Profile.

Definition msPerDay : Z := 86400000.

(** [iso.split('T')[0]] of the ISO rendering of an instant: its UTC day. *)
Definition isoDate (instant : Z) : Z := (instant / msPerDay)%Z.

(** [[...new Set(xs)]]: the distinct elements in insertion order, the first
    occurrence of each kept. *)
Fixpoint Set_values (seen xs : list Z) : list Z :=
  match xs with
  | [] => []
  | x :: rest =>
      if bool_decide (x ∈ seen) then Set_values seen rest
      else x :: Set_values (x :: seen) rest
  end.

(** The comparator [(a, b) => time(b) - time(a)] puts [a] before [b] when
    [b <= a]. *)
Definition newest_first (a b : Z) : Prop := (b ≤ a)%Z.

#[export] Instance newest_first_dec : RelDecision newest_first :=
  fun a b => decide (b ≤ a)%Z.

(** [new Date(day)] for a date-only string: midnight UTC. *)
Definition midnight (day : Z) : Z := (day * msPerDay)%Z.

(** [expected = new Date(dates[0]); expected.setDate(expected.getDate() - i)]
    read back by [toISOString().split('T')[0]]: in local time the date goes
    back [i] days at the same time of day, and the instant reached is
    rendered as a UTC day. *)
Definition expectedDate (tz : TimeZone) (first i : Z) : Z :=
  isoDate (UTC tz (LocalTime tz (midnight first) - i * msPerDay)).

(** The counting loop: [i] is the loop index, [pending] the elements from
    [dates[i]] on; [current] is rendered back to the day it was built
    from. *)
Fixpoint streak_loop (tz : TimeZone) (first : Z) (i : Z) (pending : list Z)
    (streak : nat) : nat :=
  match pending with
  | [] => streak
  | current :: later =>
      if (current =? expectedDate tz first i)%Z
      then streak_loop tz first (i + 1) later (S streak)
      else streak
  end.

(** The unique workout days, newest first. *)
Definition uniqueDates (workouts : list WorkoutSession) : list Z :=
  merge_sort newest_first
    (Set_values [] (map (fun w => isoDate (date w)) workouts)).

Definition calculateStreak (tz : TimeZone) (now : Z)
    (workouts : list WorkoutSession) : nat :=
  if (length workouts =? 0)%nat then 0%nat else
  let dates := uniqueDates workouts in
  match dates with
  | [] => 0%nat
  | first :: _ =>
      let today := isoDate now in
      let yesterday := isoDate (now - 86400000) in
      if negb (first =? today)%Z && negb (first =? yesterday)%Z
      then 0%nat
      else streak_loop tz first 0 dates 0
  end.

Record Badge := {
  badge_id : string;
  badge_name : string;
  description : string;
  condition : UserProfile -> list WorkoutSession -> bool
}.

(** [session.exercises.reduce((acc, ex) => acc + ex.weight * ex.reps * ex.sets, 0)] *)
Definition totalVolume (session : WorkoutSession) : number :=
  fold_left (fun acc ex => acc + (ex_weight ex * reps ex * sets ex))
    (exercises session) 0.

Definition volume_master_condition (u : UserProfile) (w : list WorkoutSession) : bool :=
  existsb (fun session => Qle_bool 5000 (totalVolume session)) w.

(** The catalog; both streak badges read the clock and the time zone
    through [calculateStreak]. *)
Definition BADGES (tz : TimeZone) (now : Z) : list Badge :=
  [ {| badge_id := "first_step"; badge_name := "First Step";
       description := "Log your first workout";
       condition := fun u w => (1 <=? length w)%nat |};
    {| badge_id := "consistency_3"; badge_name := "On Fire";
       description := "3-day workout streak";
       condition := fun u w => (3 <=? calculateStreak tz now w)%nat |};
    {| badge_id := "transformation_10"; badge_name := "New You";
       description := "Lost 10kg of weight";
       condition := fun u w =>
         match weightHistory u with
         | [] => false
         | oldest :: _ => Qle_bool 10 (we_weight oldest - weight u)
         end |};
    {| badge_id := "streak_30"; badge_name := "Unstoppable";
       description := "30-day workout streak";
       condition := fun u w => (30 <=? calculateStreak tz now w)%nat |};
    {| badge_id := "club_10"; badge_name := "Club 10";
       description := "Complete 10 workouts";
       condition := fun u w => (10 <=? length w)%nat |};
    {| badge_id := "volume_master"; badge_name := "Heavy Lifter";
       description := "Lift 5000kg+ in one session";
       condition := volume_master_condition |} ].

(** Looking a badge up by its display name. *)
Definition badge_named (tz : TimeZone) (now : Z) (display : string)
  : option Badge :=
  find (fun b => String.eqb (badge_name b) display) (BADGES tz now).





End Profile.

(** ** App: the session store *)

Module App.

Record State := {
  currentView : ViewState;
  workouts : list WorkoutSession;
  meals : list MealLog
}.

Definition handleAddWorkout (workout : WorkoutSession) (s : State) : State :=
  {| currentView := view_dashboard;
     workouts := workout :: workouts s;
     meals := meals s |}.

Definition handleUpdateWorkout (updatedWorkout : WorkoutSession) (s : State) : State :=
  {| currentView := currentView s;
     workouts :=
       map (fun w => if String.eqb (id w) (id updatedWorkout)
                     then updatedWorkout else w) (workouts s);
     meals := meals s |}.

Definition handleAddMeal (meal : MealLog) (s : State) : State :=
  {| currentView := currentView s;
     workouts := workouts s;
     meals := meal :: meals s |}.

End App.

(** ** components/Workout: finishing a logging session *)

Module Workout.

Record State := {
  isLogging : bool;
  currentSessionName : string;
  currentGoal : string;
  goalAchievedFlag : bool;
  currentExercises : list Exercise;
  aiStrategy : option string;
  elapsedSeconds : Z;
  isTimerRunning : bool
}.

(** [idNow] is the reading of [Date.now()] that becomes the identifier,
    [dateNow] the reading of [new Date()] that becomes the date. *)
Definition finishSession (idNow dateNow : Z) (st : State * App.State)
  : State * App.State :=
  let (w, app) := st in
  if String.eqb (currentSessionName w) EmptyString
     || (length (currentExercises w) =? 0)%nat
  then st
  else
    let durationMinutes :=
      Math_max 1 (Math_ceil (inject_Z (elapsedSeconds w) / 60)) in
    let calculatedCalories :=
      Math_floor (inject_Z durationMinutes * 5
                  + inject_Z (Z.of_nat (length (currentExercises w))) * 20) in
    let newSession :=
      {| id := pretty idNow;
         date := dateNow;
         name := currentSessionName w;
         exercises := currentExercises w;
         durationMinutes := inject_Z durationMinutes;
         caloriesBurned := inject_Z calculatedCalories;
         ws_goal := Some (currentGoal w);
         goalAchieved := Some (goalAchievedFlag w) |} in
    ({| isLogging := false;
        currentSessionName := EmptyString;
        currentGoal := EmptyString;
        goalAchievedFlag := false;
        currentExercises := [];
        aiStrategy := None;
        elapsedSeconds := elapsedSeconds w;
        isTimerRunning := false |},
     App.handleAddWorkout newSession app).

End Workout.

(** ** services/geminiService *)

Module GeminiService.

Record GenerateContentResponse := { response_text : option string }.

Record FoodAnalysis := {
  fa_name : value;
  fa_macros : MacroNutrients;
  fa_description : value
}.

Section Service.

(** The built-in [JSON.parse]: a value, or a [SyntaxError]. *)
Variable JSON_parse : string -> completion value.

(** [reply] is the outcome of [await ai.models.generateContent(...)].  The
    request (image, MIME type, instruction, schema) is built without
    branching and does not influence the control flow. *)
Definition analyzeFoodImage (reply : completion GenerateContentResponse)
  : completion FoodAnalysis :=
  try_catch
    (response ← reply;
     let text := response_text response in
     match text with
     | Some text' =>
         if falsy text then Throw (Error "No response from AI") else
         data ← JSON_parse text';
         name ← get data "name";
         calories ← get data "calories";
         protein ← get data "protein";
         carbs ← get data "carbs";
         fat ← get data "fat";
         description ← get data "description";
         mret {| fa_name := name;
                 fa_macros := {| calories := calories; protein := protein;
                                 carbs := carbs; fat := fat |};
                 fa_description := description |}
     | None => Throw (Error "No response from AI")
     end)
    (fun error => Throw error).

Definition fallbackPlan : value :=
  VObject
    [ ("workoutName", VString "Quick HIIT Blast");
      ("strategy", VString "Fallback routine to keep you moving.");
      ("exercises",
        VArray
          [ VObject [ ("name", VString "Jumping Jacks"); ("sets", VNumber 3);
                      ("reps", VNumber 30); ("weightSuggestion", VNumber 0) ];
            VObject [ ("name", VString "Pushups"); ("sets", VNumber 3);
                      ("reps", VNumber 10); ("weightSuggestion", VNumber 0) ];
            VObject [ ("name", VString "Squats"); ("sets", VNumber 3);
                      ("reps", VNumber 15); ("weightSuggestion", VNumber 0) ] ]) ]%string.

(** [JSON.parse(text) as AIWorkoutPlan] is an unchecked cast: the plan is
    whatever value the text parses to.  The prompt is assembled from the
    profile and the three most recent sessions before the request. *)
Definition generateWorkoutPlan (reply : completion GenerateContentResponse)
  : completion value :=
  try_catch
    (response ← reply;
     let text := response_text response in
     match text with
     | Some text' =>
         if falsy text then Throw (Error "No plan generated")
         else JSON_parse text'
     | None => Throw (Error "No plan generated")
     end)
    (fun error => Normal fallbackPlan).

End Service.

(** [xs[i]] for a possibly negative index. *)
Definition index {A} (xs : list A) (i : Z) : option A :=
  if (i <? 0)%Z then None else xs !! Z.to_nat i.

Definition coachingFallback : string :=
  "I'm having trouble connecting to the fitness server. Let's focus on your breathing for a moment.".

(** [created] is the outcome of [ai.chats.create(...)], [reply] that of
    [await chat.sendMessage(...)]. *)
Definition getFitnessCoaching
    (created : completion unit) (reply : completion GenerateContentResponse)
    (history : list ChatMessage) (userContext : string) : completion string :=
  try_catch
    (_ ← created;
     let lastUserMessage := index history (Z.of_nat (length history) - 1) in
     lastRole ← match lastUserMessage with
                | Some m => Normal (role m)
                | None => Throw TypeError
                end;
     match lastRole with
     | role_model => Normal EmptyString
     | role_user =>
         result ← reply;
         Normal (if falsy (response_text result)
                 then "Keep pushing! I'm analyzing your request."%string
                 else default EmptyString (response_text result))
     end)
    (fun error => Normal coachingFallback).

End GeminiService.

(** ** components/Nutrition *)

Module Nutrition.
Import GeminiService.

Record State := {
  isAnalyzing : bool;
  preview : option string;
  analysisResult : option FoodAnalysis;
  alerts : list string
}.

Record File := { file_type : string }.

Definition setAnalysisResult (r : option FoodAnalysis) (s : State) : State :=
  {| isAnalyzing := isAnalyzing s; preview := preview s;
     analysisResult := r; alerts := alerts s |}.

Definition setIsAnalyzing (b : bool) (s : State) : State :=
  {| isAnalyzing := b; preview := preview s;
     analysisResult := analysisResult s; alerts := alerts s |}.

Definition setPreview (p : option string) (s : State) : State :=
  {| isAnalyzing := isAnalyzing s; preview := p;
     analysisResult := analysisResult s; alerts := alerts s |}.

Definition alert (message : string) (s : State) : State :=
  {| isAnalyzing := isAnalyzing s; preview := preview s;
     analysisResult := analysisResult s; alerts := message :: alerts s |}.

Section Handlers.

Variable JSON_parse : string -> completion value.

(** [file] is [e.target.files?.[0]], [reader_result] the [reader.result]
    seen by [onloadend] ([null] when the read failed), [reply] the outcome
    of the request sent by [analyzeFoodImage].  The handler runs with the
    component state and the store it could reach through [onAddMeal]. *)
Definition handleFileSelect
    (file : option File) (reader_result : option string)
    (reply : completion GenerateContentResponse)
    (st : State * App.State) : completion (State * App.State) :=
  let (s, app) := st in
  match file with
  | None => Normal st
  | Some file =>
      let base64String := reader_result in
      let s := setPreview base64String s in
      let s := setAnalysisResult None s in
      let s := setIsAnalyzing true s in
      s ← try_catch
            (_ ← match base64String with
                 | Some _ => Normal tt
                 | None => Throw TypeError
                 end;
             result ← analyzeFoodImage JSON_parse reply;
             Normal (setAnalysisResult (Some result) s))
            (fun error =>
               Normal (alert "Failed to analyze image. Please try again." s));
      Normal (setIsAnalyzing false s, app)
  end.

End Handlers.

Definition truthy (p : option string) : bool :=
  match p with
  | Some s => negb (String.eqb s EmptyString)
  | None => false
  end.

(** [idNow] and [stampNow] are the two readings of [Date.now()]. *)
Definition handleSaveMeal (idNow stampNow : Z) (st : State * App.State)
  : State * App.State :=
  let (s, app) := st in
  match analysisResult s with
  | Some result =>
      if truthy (preview s) then
        let newMeal :=
          {| ml_id := pretty idNow;
             ml_name := fa_name result;
             timestamp := stampNow;
             macros := fa_macros result;
             imageUrl := preview s |} in
        (setAnalysisResult None (setPreview None s), App.handleAddMeal newMeal app)
      else st
  | None => st
  end.

End Nutrition.

(** ** The properties, in the words of the specification *)

Module Spec.

(** [z] is [x] rounded to the nearest integer (the upper one on a tie). *)
Definition rounds_to (x : number) (z : Z) : Prop :=
  inject_Z z - 0.5 <= x /\ x < inject_Z z + 0.5.

Definition activityFactor (level : ActivityLevel) : number :=
  match level with
  | SEDENTARY => 1.2
  | LIGHT => 1.375
  | MODERATE => 1.55
  | VERY => 1.725
  end.

Definition goalAdjustment (goal : string) : number :=
  if decide (goal = "Lose Weight") then -500
  else if decide (goal = "Build Muscle") then 300
  else 0.

Definition genderConstant (g : Gender) : number :=
  match g with Male => 5 | _ => -161 end.

(** activityFactor × (10·weight + 6.25·height − 5·age + constant) + goalAdjustment *)
Definition exactCalorieTarget (u : UserProfile) : number :=
  activityFactor (activityLevel u)
  * (10 * weight u + 6.25 * height u - 5 * age u + genderConstant (gender u))
  + goalAdjustment (goal u).



(** Σ over the exercises of weight×reps×sets *)
Definition volume (session : WorkoutSession) : number :=
  foldr (fun ex total => ex_weight ex * reps ex * sets ex + total) 0
    (exercises session).

(** The distinct workout days of a history, as a predicate. *)
Definition workout_day (workouts : list WorkoutSession) (d : Z) : Prop :=
  exists w, w ∈ workouts /\ Profile.isoDate (date w) = d.

Definition most_recent_day (workouts : list WorkoutSession) (m : Z) : Prop :=
  workout_day workouts m /\ forall d, workout_day workouts d -> (d ≤ m)%Z.

(** A zone whose offset from UTC never changes. *)
Definition fixed_offset (tz : TimeZone) : Prop :=
  exists c : Z, forall t : Z, offsetAtUtc tz t = c /\ offsetAtLocal tz t = c.

(** A zone in which every UTC midnight, taken to local time and back, is
    the same instant again: no UTC midnight falls into a local hour that a
    clock change repeats. *)
Definition keeps_midnights (tz : TimeZone) : Prop :=
  forall day : Z,
    UTC tz (LocalTime tz (Profile.midnight day)) = Profile.midnight day.

(** [k] consecutive days, counted back from [m], up to the first gap. *)
Definition consecutive_run (workouts : list WorkoutSession) (m : Z) (k : nat) : Prop :=
  (forall j : nat, (j < k)%nat -> workout_day workouts (m - Z.of_nat j))
  /\ ~ workout_day workouts (m - Z.of_nat k).

End Spec.

(** ** Time zones *)

Module Zones.

Definition hour : Z := 3600000.

Definition utc : TimeZone :=
  {| offsetAtUtc := fun _ => 0%Z; offsetAtLocal := fun _ => 0%Z |}.

(** America/New_York as it is during 2024: daylight time from
    2024-03-10T07:00Z to 2024-11-03T06:00Z, that is from 03:00 local time
    on March 10 up to 02:00 local time on November 3. *)
Definition newYork2024 : TimeZone :=
  {| offsetAtUtc := fun t =>
       if (1710054000000 <=? t)%Z && (t <? 1730613600000)%Z
       then (-4 * hour)%Z else (-5 * hour)%Z;
     offsetAtLocal := fun t =>
       if (1710039600000 <=? t)%Z && (t <? 1730599200000)%Z
       then (-4 * hour)%Z else (-5 * hour)%Z |}.

End Zones.

(** ** Whole kilograms and centimetres *)

Module WholeNumbers.






End WholeNumbers.

Module Failure.
Import GeminiService.

(** The ways a generation request fails: the transport rejects, the
    response carries no text, or the text is not JSON. *)
Inductive service_failure (JSON_parse : string -> completion value)
  : completion GenerateContentResponse -> Prop :=
| transport_error (e : exn) :
    service_failure JSON_parse (Throw e)
| missing_response (response : GenerateContentResponse) :
    falsy (response_text response) = true ->
    service_failure JSON_parse (Normal response)
| parse_failure (response : GenerateContentResponse) (text : string) (e : exn) :
    response_text response = Some text ->
    JSON_parse text = Throw e ->
    service_failure JSON_parse (Normal response).

Definition numericFields : list string :=
  ["calories"; "protein"; "carbs"; "fat"]%string.

(** A parsed document that lacks one of the numeric fields. *)
Definition missing_numeric_field (data : value) : Prop :=
  exists key, key ∈ numericFields /\ get data key = Normal VUndefined.

End Failure.

(** ** Concrete inputs *)

Module Samples.
Import GeminiService.

(** [JSON.parse] on the one text used below: the two-character document of
    an object without properties.  Every other text is rejected here. *)
Definition JSON_parse_braces (text : string) : completion value :=
  if String.eqb text "{}" then Normal (VObject []) else Throw SyntaxError.

Definition reply_braces : completion GenerateContentResponse :=
  Normal {| response_text := Some "{}"%string |}.

Definition profile_18_5 : UserProfile :=
  {| up_name := "Ada"; gender := Female; age := 30; weight := 18.5;
     height := 100; goal := "Maintain"; activityLevel := MODERATE;
     weightHistory := [] |}.


Definition press : Exercise :=
  {| ex_id := "1"; ex_name := "Leg press"; sets := 10; reps := 10;
     ex_weight := 50; completed := true |}.

Definition curl : Exercise :=
  {| ex_id := "2"; ex_name := "Curl"; sets := 3; reps := 12;
     ex_weight := 10; completed := false |}.

Definition session_at (ident : string) (instant : Z) (exs : list Exercise)
  : WorkoutSession :=
  {| id := ident; date := instant; name := "Session";
     exercises := exs; durationMinutes := 30; caloriesBurned := 190;
     ws_goal := None; goalAchieved := None |}.

Definition monday : WorkoutSession := session_at "1700000000000" 1700000000000 [curl].

Definition tuesday : WorkoutSession := session_at "1700086400000" 1700086400000 [press].

Definition tuesdayDone : WorkoutSession :=
  {| id := id tuesday; date := date tuesday; name := name tuesday;
     exercises := exercises tuesday;
     durationMinutes := durationMinutes tuesday;
     caloriesBurned := caloriesBurned tuesday;
     ws_goal := Some "Ten clean reps"%string; goalAchieved := Some true |}.

Definition twoSessions : App.State :=
  {| App.currentView := view_workout; App.workouts := [tuesday; monday];
     App.meals := [] |}.

(** Noon UTC on 4 November 2024, and sessions logged that day and on the
    two days before. *)
Definition november4 : Z := 1730721600000.

Definition novemberHistory : list WorkoutSession :=
  [ session_at "1730719800000" 1730719800000 [press];
    session_at "1730635200000" 1730635200000 [curl];
    session_at "1730548800000" 1730548800000 [curl] ].

Definition emptyStore : App.State :=
  {| App.currentView := view_workout; App.workouts := []; App.meals := [] |}.

Definition logging_125 : Workout.State :=
  {| Workout.isLogging := true;
     Workout.currentSessionName := "Push day";
     Workout.currentGoal := "Ten clean reps";
     Workout.goalAchievedFlag := false;
     Workout.currentExercises := [press; curl];
     Workout.aiStrategy := None;
     Workout.elapsedSeconds := 125;
     Workout.isTimerRunning := true |}.

Definition idleNutrition : Nutrition.State :=
  {| Nutrition.isAnalyzing := false; Nutrition.preview := None;
     Nutrition.analysisResult := None; Nutrition.alerts := [] |}.

Definition photo : Nutrition.File := {| Nutrition.file_type := "image/png" |}.

(** Noon of day 20000 after the epoch. *)
Definition noon : Z := 20000 * 86400000 + 43200000.

Definition day : Z := 86400000.

End Samples.

(** ** components/Workout: the rest of the logger *)

Module Logger.
Import Workout GeminiService.

Definition startLogging (w : State) : State :=
  {| isLogging := true;
     currentSessionName := EmptyString;
     currentGoal := EmptyString;
     goalAchievedFlag := false;
     currentExercises := [];
     aiStrategy := None;
     elapsedSeconds := 0;
     isTimerRunning := true |}.

Definition cancelLogging (w : State) : State :=
  {| isLogging := false;
     currentSessionName := currentSessionName w;
     currentGoal := currentGoal w;
     goalAchievedFlag := goalAchievedFlag w;
     currentExercises := currentExercises w;
     aiStrategy := aiStrategy w;
     elapsedSeconds := elapsedSeconds w;
     isTimerRunning := false |}.

(** One firing of the interval.  The effect installs the interval only
    while [isTimerRunning && isLogging] and clears it otherwise. *)
Definition tick (w : State) : State :=
  if isTimerRunning w && isLogging w then
    {| isLogging := isLogging w;
       currentSessionName := currentSessionName w;
       currentGoal := currentGoal w;
       goalAchievedFlag := goalAchievedFlag w;
       currentExercises := currentExercises w;
       aiStrategy := aiStrategy w;
       elapsedSeconds := elapsedSeconds w + 1;
       isTimerRunning := isTimerRunning w |}
  else w.

(** The pause/resume button: [setIsTimerRunning(!isTimerRunning)]. *)
Definition toggleTimer (w : State) : State :=
  {| isLogging := isLogging w;
     currentSessionName := currentSessionName w;
     currentGoal := currentGoal w;
     goalAchievedFlag := goalAchievedFlag w;
     currentExercises := currentExercises w;
     aiStrategy := aiStrategy w;
     elapsedSeconds := elapsedSeconds w;
     isTimerRunning := negb (isTimerRunning w) |}.

Definition setCurrentSessionName (n : string) (w : State) : State :=
  {| isLogging := isLogging w;
     currentSessionName := n;
     currentGoal := currentGoal w;
     goalAchievedFlag := goalAchievedFlag w;
     currentExercises := currentExercises w;
     aiStrategy := aiStrategy w;
     elapsedSeconds := elapsedSeconds w;
     isTimerRunning := isTimerRunning w |}.

Definition setAiStrategy (s : option string) (w : State) : State :=
  {| isLogging := isLogging w;
     currentSessionName := currentSessionName w;
     currentGoal := currentGoal w;
     goalAchievedFlag := goalAchievedFlag w;
     currentExercises := currentExercises w;
     aiStrategy := s;
     elapsedSeconds := elapsedSeconds w;
     isTimerRunning := isTimerRunning w |}.

Definition setCurrentExercises (exs : list Exercise) (w : State) : State :=
  {| isLogging := isLogging w;
     currentSessionName := currentSessionName w;
     currentGoal := currentGoal w;
     goalAchievedFlag := goalAchievedFlag w;
     currentExercises := exs;
     aiStrategy := aiStrategy w;
     elapsedSeconds := elapsedSeconds w;
     isTimerRunning := isTimerRunning w |}.

Definition toggleExerciseComplete (ident : string) (w : State) : State :=
  setCurrentExercises
    (map (fun e =>
            if String.eqb (ex_id e) ident
            then {| ex_id := ex_id e; ex_name := ex_name e; sets := sets e;
                    reps := reps e; ex_weight := ex_weight e;
                    completed := negb (completed e) |}
            else e)
         (currentExercises w))
    w.

(** [onUpdateWorkout({ ...w, goalAchieved: !w.goalAchieved })]; a missing
    flag negates to [true]. *)
Definition toggleGoalAchieved (w : WorkoutSession) (app : App.State) : App.State :=
  App.handleUpdateWorkout
    {| id := id w; date := date w; name := name w;
       exercises := exercises w;
       durationMinutes := durationMinutes w;
       caloriesBurned := caloriesBurned w;
       ws_goal := ws_goal w;
       goalAchieved := Some (negb (default false (goalAchieved w))) |}
    app.

(** [s.padStart(2, '0')] *)
Definition padStart2 (s : string) : string :=
  match String.length s with
  | 0%nat => "00"
  | 1%nat => "0" +:+ s
  | _ => s
  end.

(** [totalSeconds] is a whole number; [%] keeps the sign of the dividend. *)
Definition formatTime (totalSeconds : Z) : string :=
  let minutes := Math_floor (inject_Z totalSeconds / 60) in
  let seconds := Z.rem totalSeconds 60 in
  (padStart2 (pretty minutes) +:+ ":" +:+ padStart2 (pretty seconds))%string.

(** What the logger view holds besides the session being logged. *)
Record View := {
  logger : State;
  isGenerating : bool;
  alerts : list string
}.

Definition asString (v : value) : option string :=
  match v with VString s => Some s | _ => None end.

Definition asNumber (v : value) : option number :=
  match v with VNumber n => Some n | _ => None end.

(** [string | null] *)
Definition asStrategy (v : value) : option (option string) :=
  match v with
  | VString s => Some (Some s)
  | VNull => Some None
  | _ => None
  end.

Definition nullish (v : value) : bool :=
  match v with VUndefined | VNull => true | _ => false end.

(** One mapped exercise; [fresh] is [Date.now().toString() +
    Math.random().toString()] as evaluated for this element.  [None] when
    a field does not have its declared type. *)
Definition mapExercise (fresh : string) (ex : value) : option Exercise :=
  match ex with
  | VObject props =>
      n ← asString (own_property props "name");
      s ← asNumber (own_property props "sets");
      r ← asNumber (own_property props "reps");
      w ← asNumber (own_property props "weightSuggestion");
      Some {| ex_id := fresh; ex_name := n; sets := s; reps := r;
              ex_weight := w; completed := false |}
  | _ => None
  end.

(** [plan.exercises.map(...)]: a [TypeError] at the first [null] element;
    otherwise the mapped list, provided every element is well typed. *)
Definition mapExercises (fresh : nat -> string) (items : list value)
  : option (completion (list Exercise)) :=
  if existsb nullish items then Some (Throw TypeError)
  else Normal <$> mapM (fun p => mapExercise (fresh p.1) p.2)
                    (imap (fun i item => (i, item)) items).

Section Generate.

Variable JSON_parse : string -> completion value.

(** The whole handler, from the click to the [finally] clause.  State
    updates made before a throw persist.  The result is [None] when the
    parsed plan puts a value of an undeclared type into the logger state
    (a name that is not a string, an exercise field that is not a number):
    such states are not represented. *)
Definition handleGenerateWorkout
    (reply : completion GenerateContentResponse) (fresh : nat -> string)
    (v : View) : option View :=
  let failed (w : State) :=
    Some {| logger := w; isGenerating := false;
            alerts := "Could not generate plan. Please try again."%string
                      :: alerts v |} in
  let finished (w : State) :=
    Some {| logger := w; isGenerating := false; alerts := alerts v |} in
  match generateWorkoutPlan JSON_parse reply with
  | Throw _ => failed (logger v)
  | Normal plan =>
      let w := startLogging (logger v) in
      match get plan "workoutName" with
      | Throw _ => failed w
      | Normal workoutName =>
          n ← asString workoutName;
          let w := setCurrentSessionName n w in
          match get plan "strategy" with
          | Throw _ => failed w
          | Normal strategy =>
              s ← asStrategy strategy;
              let w := setAiStrategy s w in
              match get plan "exercises" with
              | Throw _ => failed w
              | Normal (VArray items) =>
                  mapped ← mapExercises fresh items;
                  match mapped with
                  | Throw _ => failed w
                  | Normal exs => finished (setCurrentExercises exs w)
                  end
              | Normal _ => failed w
              end
          end
      end
  end.

End Generate.

End Logger.

(** ** components/Dashboard: aggregates, device sync, insight *)

Module DashboardView.
Import GeminiService.

Definition totalCaloriesBurned (workouts : list WorkoutSession) : number :=
  fold_left (fun acc w => acc + caloriesBurned w) workouts 0.

Definition activeMinutes (workouts : list WorkoutSession) : number :=
  fold_left (fun acc w => acc + durationMinutes w) workouts 0.

Record State := {
  isScanning : bool;
  isConnected : bool;
  deviceSteps : Z;
  heartRate : Z;
  aiInsight : string;
  isAiLoading : bool
}.

(** [deviceSteps || 2450] *)
Definition totalSteps (s : State) : Z :=
  if (deviceSteps s =? 0)%Z then 2450%Z else deviceSteps s.

Definition generateDashboardInsight (reply : completion GenerateContentResponse)
  : completion string :=
  try_catch
    (response ← reply;
     Normal (if falsy (response_text response)
             then "Stay consistent to see results!"%string
             else default EmptyString (response_text response)))
    (fun error => Normal "Great job logging in today. Let's crush some goals!"%string).

Definition fetchInsight (reply : completion GenerateContentResponse) (s : State)
  : State :=
  let insight :=
    match generateDashboardInsight reply with
    | Normal insight => insight
    | Throw _ => "Focus on hitting your protein goals today!"%string
    end in
  {| isScanning := isScanning s; isConnected := isConnected s;
     deviceSteps := deviceSteps s; heartRate := heartRate s;
     aiInsight := insight; isAiLoading := false |}.

(** [handleBluetoothSync] up to its [setTimeout]. *)
Definition syncClicked (s : State) : State :=
  {| isScanning := true; isConnected := isConnected s;
     deviceSteps := deviceSteps s; heartRate := heartRate s;
     aiInsight := aiInsight s; isAiLoading := isAiLoading s |}.

(** The deferred callback; [wasConnected] is the flag the click saw, [r1]
    and [r2] the two readings of [Math.random()] in the order they are
    taken: the heart rate is computed in the callback, the step updater
    runs when the state is applied. *)
Definition syncTimeout (wasConnected : bool) (r1 r2 : number) (s : State) : State :=
  if wasConnected then
    {| isScanning := false; isConnected := isConnected s;
       deviceSteps := deviceSteps s + Math_floor (r2 * 500);
       heartRate := 60 + Math_floor (r1 * 40);
       aiInsight := aiInsight s; isAiLoading := isAiLoading s |}
  else
    {| isScanning := false; isConnected := true;
       deviceSteps := 5432; heartRate := 78;
       aiInsight := aiInsight s; isAiLoading := isAiLoading s |}.

Definition handleBluetoothSync (r1 r2 : number) (s : State) : State :=
  syncTimeout (isConnected s) r1 r2 (syncClicked s).

End DashboardView.

(** ** components/AICoach *)

Module AICoach.
Import GeminiService.

Record State := {
  input : string;
  isLoading : bool;
  messages : list ChatMessage
}.

Section Send.

(** The built-in [String.prototype.trim]. *)
Variable trim : string -> string.

(** [t1] to [t4] are the four readings of [Date.now()], in program order. *)
Definition handleSend
    (created : completion unit) (reply : completion GenerateContentResponse)
    (userContext : string) (t1 t2 t3 t4 : Z) (s : State) : State :=
  if String.eqb (trim (input s)) EmptyString then s else
  let userMsg :=
    {| cm_id := pretty t1; role := role_user; text := input s;
       cm_timestamp := t2 |} in
  let sent := messages s ++ [userMsg] in
  match getFitnessCoaching created reply (messages s ++ [userMsg]) userContext with
  | Normal responseText =>
      let botMsg :=
        {| cm_id := pretty (t3 + 1)%Z; role := role_model; text := responseText;
           cm_timestamp := t4 |} in
      {| input := EmptyString; isLoading := false; messages := sent ++ [botMsg] |}
  | Throw _ =>
      {| input := EmptyString; isLoading := false; messages := sent |}
  end.

End Send.

End AICoach.

(** ** components/Onboarding *)

Module Onboarding.

(** [Partial<UserProfile>] as the form fills it.  Gender, goal and activity
    level start defined and are only ever overwritten with defined values.
    A numeric field is [None] while it is [undefined] or [NaN] (what
    [parseInt] gives for an empty box); both are falsy. *)
Record FormData := {
  fd_name : option string;
  fd_gender : Gender;
  fd_age : option number;
  fd_weight : option number;
  fd_height : option number;
  fd_goal : string;
  fd_activityLevel : ActivityLevel
}.

Definition initialFormData : FormData :=
  {| fd_name := None; fd_gender := Male; fd_age := None; fd_weight := None;
     fd_height := None; fd_goal := "Build Muscle";
     fd_activityLevel := MODERATE |}.

Definition truthyString (s : option string) : bool :=
  match s with
  | Some s => negb (String.eqb s EmptyString)
  | None => false
  end.

Definition truthyNumber (n : option number) : bool :=
  match n with
  | Some q => negb (Qeq_bool q 0)
  | None => false
  end.

(** The profile handed to [onComplete], if any; [now] is the clock. *)
Definition handleSubmit (now : Z) (formData : FormData) : option UserProfile :=
  match fd_name formData, fd_age formData, fd_weight formData, fd_height formData with
  | Some n, Some a, Some w, Some h =>
      if truthyString (fd_name formData) && truthyNumber (fd_age formData)
         && truthyNumber (fd_weight formData) && truthyNumber (fd_height formData)
      then Some {| up_name := n; gender := fd_gender formData; age := a;
                   weight := w; height := h; goal := fd_goal formData;
                   activityLevel := fd_activityLevel formData;
                   weightHistory :=
                     [ {| we_date := Profile.isoDate now; we_weight := w |} ] |}
      else None
  | _, _, _, _ => None
  end.

Record State := { step : Z; formData : FormData }.

Definition handleNext (now : Z) (s : State) : State * option UserProfile :=
  if (step s <? 3)%Z
  then ({| step := step s + 1; formData := formData s |}, None)
  else (s, handleSubmit now (formData s)).

End Onboarding.

(** ** Properties of the store *)

Module Invariants.

(** What every session put into the store by the logger satisfies. *)
Record well_formed (w : WorkoutSession) : Prop := {
  wf_duration : 1 <= durationMinutes w;
  wf_calories : 25 <= caloriesBurned w;
  wf_name : name w <> EmptyString;
  wf_exercises : exercises w <> [];
  wf_id : exists reading : Z, id w = pretty reading /\ (reading ≤ date w)%Z;
  wf_flag : is_Some (goalAchieved w)
}.

(** The session a permitted finish adds, written out. *)
Definition finishedSession (idNow dateNow : Z) (w : Workout.State)
  : WorkoutSession :=
  {| id := pretty idNow;
     date := dateNow;
     name := Workout.currentSessionName w;
     exercises := Workout.currentExercises w;
     durationMinutes :=
       inject_Z (Math_max 1 (Math_ceil (inject_Z (Workout.elapsedSeconds w) / 60)));
     caloriesBurned :=
       inject_Z (Math_floor
         (inject_Z (Math_max 1 (Math_ceil (inject_Z (Workout.elapsedSeconds w) / 60))) * 5
          + inject_Z (Z.of_nat (length (Workout.currentExercises w))) * 20));
     ws_goal := Some (Workout.currentGoal w);
     goalAchieved := Some (Workout.goalAchievedFlag w) |}.

(** The replacement done by [toggleGoalAchieved], entry by entry. *)
Definition flipped (s : WorkoutSession) : WorkoutSession :=
  {| id := id s; date := date s; name := name s; exercises := exercises s;
     durationMinutes := durationMinutes s; caloriesBurned := caloriesBurned s;
     ws_goal := ws_goal s;
     goalAchieved := Some (negb (default false (goalAchieved s))) |}.

(** Distinct identifiers, well-formed sessions, newest first. *)
Definition store_ok (app : App.State) : Prop :=
  NoDup (id <$> App.workouts app)
  /\ Forall well_formed (App.workouts app)
  /\ StronglySorted (fun a b => (date b < date a)%Z) (App.workouts app).

(** Stores built from an empty store by finishing sessions, toggling the
    goal flag of a stored session, and adding meals.  The clock does not
    run backwards inside a finish, and it has moved on since the date of
    every stored session. *)
Inductive built : App.State -> Prop :=
| built_empty (view : ViewState) :
    built {| App.currentView := view; App.workouts := []; App.meals := [] |}
| built_finish (idNow dateNow : Z) (w : Workout.State) (app : App.State) :
    built app ->
    (idNow ≤ dateNow)%Z ->
    (forall s, s ∈ App.workouts app -> (date s < idNow)%Z) ->
    built (Workout.finishSession idNow dateNow (w, app)).2
| built_toggle (s : WorkoutSession) (app : App.State) :
    built app -> s ∈ App.workouts app ->
    built (Logger.toggleGoalAchieved s app)
| built_meal (meal : MealLog) (app : App.State) :
    built app -> built (App.handleAddMeal meal app).

End Invariants.

(** ** Reading the badge catalog *)

Module Catalog.

(** Whether the badge with this display name is shown as unlocked. *)
Definition unlocked (tz : TimeZone) (now : Z) (display : string)
    (u : UserProfile) (w : list WorkoutSession) : bool :=
  match Profile.badge_named tz now display with
  | Some b => Profile.condition b u w
  | None => false
  end.

End Catalog.

(** ** The clock face, digit by digit *)

Module ClockFace.

Definition digit (d : Z) : Ascii.ascii := Ascii.ascii_of_nat (48 + Z.to_nat d).

(** Two digits of minutes, a colon, two digits of seconds. *)
Definition render (totalSeconds : Z) : string :=
  let m := (totalSeconds / 60)%Z in
  let s := (totalSeconds mod 60)%Z in
  String (digit (m / 10))
    (String (digit (m mod 10))
      (String (Ascii.ascii_of_nat 58)
        (String (digit (s / 10))
          (String (digit (s mod 10)) EmptyString)))).

End ClockFace.

(** ** More concrete inputs *)

Module Scenarios.
Import Samples.

Definition history : list WorkoutSession := [tuesday; monday].

Definition shuffledHistory : list WorkoutSession := [monday; tuesday; monday].

Definition connectedDashboard : DashboardView.State :=
  {| DashboardView.isScanning := false; DashboardView.isConnected := true;
     DashboardView.deviceSteps := 5432; DashboardView.heartRate := 78;
     DashboardView.aiInsight := "Stay consistent to see results!";
     DashboardView.isAiLoading := false |}.

Definition idleLogger : Workout.State :=
  {| Workout.isLogging := false;
     Workout.currentSessionName := EmptyString;
     Workout.currentGoal := EmptyString;
     Workout.goalAchievedFlag := false;
     Workout.currentExercises := [];
     Workout.aiStrategy := None;
     Workout.elapsedSeconds := 0;
     Workout.isTimerRunning := false |}.

Definition idleView : Logger.View :=
  {| Logger.logger := idleLogger; Logger.isGenerating := false;
     Logger.alerts := [] |}.

(** Identifiers for mapped exercises: the position, in decimal. *)
Definition numbered (i : nat) : string := pretty i.

Definition offline : completion GeminiService.GenerateContentResponse :=
  Throw (Rejected "offline").

Definition dataUrl : string := "data:image/png;base64,AAAA".

Definition undefinedAnalysis : GeminiService.FoodAnalysis :=
  {| GeminiService.fa_name := VUndefined;
     GeminiService.fa_macros :=
       {| calories := VUndefined; protein := VUndefined;
          carbs := VUndefined; fat := VUndefined |};
     GeminiService.fa_description := VUndefined |}.

End Scenarios.

(** * Verification *)

(** ** Arithmetic of the runtime fragment *)



Lemma Qle_bool_false (a b : number) : Qle_bool a b = false <-> b < a.
Proof.
  split.
  - intros H. apply Qnot_le_lt. intros Hle.
    apply Qle_bool_iff in Hle. congruence.
  - intros H. destruct (Qle_bool a b) eqn:E; [|done].
    apply Qle_bool_iff in E. lra.
Qed.

Lemma Math_round_rounds (x : number) : Spec.rounds_to x (Math_round x).
Proof.
  unfold Spec.rounds_to, Math_round.
  pose proof (Qfloor_le (x + 0.5)) as Hlo.
  pose proof (Qlt_floor (x + 0.5)) as Hhi.
  rewrite inject_Z_plus in Hhi. change (inject_Z 1) with 1 in Hhi.
  split; lra.
Qed.

Lemma rounds_to_unique (x : number) (z1 z2 : Z) :
  Spec.rounds_to x z1 -> Spec.rounds_to x z2 -> z1 = z2.
Proof.
  intros [Ha Hb] [Hc Hd].
  assert (inject_Z z1 < inject_Z z2 + 1) as H1 by lra.
  assert (inject_Z z2 < inject_Z z1 + 1) as H2 by lra.
  change 1 with (inject_Z 1) in H1, H2.
  rewrite <- inject_Z_plus in H1, H2.
  rewrite <- Zlt_Qlt in H1, H2. lia.
Qed.

Lemma toFixed1_nonneg (x : number) :
  0 <= x -> toFixed1 x == inject_Z (Qfloor (x * 10 + 0.5)) / 10.
Proof.
  intros Hx. unfold toFixed1.
  destruct (Qle_bool 0 x) eqn:E; [reflexivity|].
  apply Qle_bool_false in E. lra.
Qed.


(** ** Daily calorie target *)

(** C4.  For every profile the daily calorie target is the rounding to the
    nearest integer of activityFactor × (10·weight + 6.25·height − 5·age +
    (5 for Male, −161 otherwise)) + goalAdjustment, with the factors 1.2,
    1.375, 1.55, 1.725 and the adjustments −500 ("Lose Weight"), +300
    ("Build Muscle") and 0 (any other goal). *)
Theorem calorie_target_rounds_formula (u : UserProfile) :
  Spec.rounds_to (Spec.exactCalorieTarget u)
    (Dashboard.calorieGoal (Dashboard.calculateTargets u)).
Proof.
  unfold Dashboard.calculateTargets, Spec.exactCalorieTarget,
    Spec.goalAdjustment, Spec.genderConstant, Spec.activityFactor,
    Dashboard.multipliers, Dashboard.calorieGoal.
  match goal with
  | |- Spec.rounds_to _ (Math_round ?x) =>
      pose proof (Math_round_rounds x) as Hr; set (code := x) in *
  end.
  assert (code == Spec.exactCalorieTarget u) as Heq.
  { subst code. unfold Spec.exactCalorieTarget, Spec.goalAdjustment,
      Spec.genderConstant, Spec.activityFactor.
    destruct (String.eqb_spec (goal u) "Lose Weight") as [Hl|Hl];
      destruct (String.eqb_spec (goal u) "Build Muscle") as [Hb|Hb];
      repeat case_decide; try congruence;
      destruct (activityLevel u), (gender u); ring. }
  unfold Spec.rounds_to in *.
  unfold Spec.exactCalorieTarget, Spec.goalAdjustment,
      Spec.genderConstant, Spec.activityFactor in Heq.
  rewrite <- Heq. exact Hr.
Qed.

(** ** Body-mass index *)










(** ** Finishing a logging session *)

Lemma ceil_div_60 (e : Z) :
  let c := Math_ceil (inject_Z e / 60) in
  (e ≤ 60 * c)%Z /\ (60 * (c - 1) < e)%Z.
Proof.
  unfold Math_ceil.
  pose proof (Qle_ceiling (inject_Z e / 60)) as Hlo.
  pose proof (Qceiling_lt (inject_Z e / 60)) as Hhi.
  set (c := Qceiling (inject_Z e / 60)) in *. simpl.
  assert (inject_Z e / 60 == inject_Z e * (1 # 60)) as Hd by field.
  rewrite Hd in Hlo, Hhi.
  unfold Z.sub in Hhi. rewrite inject_Z_plus, inject_Z_opp in Hhi.
  change (inject_Z 1) with 1 in Hhi.
  split.
  - rewrite Zle_Qle, inject_Z_mult. change (inject_Z 60) with 60. lra.
  - unfold Z.sub.
    rewrite Zlt_Qlt, inject_Z_mult, inject_Z_plus, inject_Z_opp.
    change (inject_Z 60) with 60. change (inject_Z 1) with 1. lra.
Qed.

Lemma floor_of_integers (d n : Z) :
  Math_floor (inject_Z d * 5 + inject_Z n * 20) = (d * 5 + n * 20)%Z.
Proof.
  unfold Math_floor.
  rewrite <- (Qfloor_Z (d * 5 + n * 20)).
  apply Qfloor_comp.
  rewrite inject_Z_plus, !inject_Z_mult. reflexivity.
Qed.

(** C8.  Finishing changes nothing unless the session name is non-empty
    and at least one exercise exists; otherwise the session added to the
    store has durationMinutes = max(1, ceil(elapsedSeconds / 60)), that is
    the least integer [d >= 1] with [60 d >= elapsedSeconds], and
    caloriesBurned = floor(d × 5 + exerciseCount × 20) = 5 d + 20
    exerciseCount.  With 125 seconds and 2 exercises these are 3 and 55. *)
Theorem finish_session_stats
    (idNow dateNow : Z) (w : Workout.State) (app : App.State) :
  let n := Z.of_nat (length (Workout.currentExercises w)) in
  let after := Workout.finishSession idNow dateNow (w, app) in
  (Workout.currentSessionName w = EmptyString \/ n = 0%Z -> after = (w, app))
  /\ (Workout.currentSessionName w <> EmptyString -> n <> 0%Z ->
      exists (session : WorkoutSession) (d : Z),
        App.workouts (snd after) = session :: App.workouts app
        /\ name session = Workout.currentSessionName w
        /\ exercises session = Workout.currentExercises w
        /\ durationMinutes session = inject_Z d
        /\ d = Z.max 1 (Qceiling (inject_Z (Workout.elapsedSeconds w) / 60))
        /\ (1 ≤ d)%Z /\ (Workout.elapsedSeconds w ≤ 60 * d)%Z
        /\ (d = 1%Z \/ (60 * (d - 1) < Workout.elapsedSeconds w)%Z)
        /\ caloriesBurned session = inject_Z (d * 5 + n * 20)
        /\ Workout.isLogging (fst after) = false
        /\ (Workout.elapsedSeconds w = 125%Z -> n = 2%Z ->
            durationMinutes session = 3 /\ caloriesBurned session = 55)).
Proof.
  intros n after. subst after. unfold Workout.finishSession. split.
  - intros [Hname | Hlen].
    + rewrite Hname. reflexivity.
    + assert (length (Workout.currentExercises w) = 0%nat) as -> by lia.
      rewrite orb_true_r. reflexivity.
  - intros Hname Hlen.
    destruct (String.eqb_spec (Workout.currentSessionName w) EmptyString)
      as [Heq | _]; [contradiction|].
    destruct (Nat.eqb_spec (length (Workout.currentExercises w)) 0)
      as [Heq | _]; [lia|].
    cbn [orb snd fst App.handleAddWorkout App.workouts].
    destruct (ceil_div_60 (Workout.elapsedSeconds w)) as [Hlo Hhi].
    unfold Math_max, Math_ceil in *.
    set (c := Qceiling (inject_Z (Workout.elapsedSeconds w) / 60)) in *.
    eexists _, (Z.max 1 c). split; [reflexivity|].
    cbn [name exercises durationMinutes caloriesBurned].
    split; [reflexivity|]. split; [reflexivity|].
    split; [reflexivity|]. split; [reflexivity|]. split; [lia|].
    split; [lia|]. split; [lia|].
    split; [apply f_equal, floor_of_integers|]. split; [reflexivity|].
    intros He Hn. rewrite floor_of_integers. fold n.
    subst c. rewrite He, Hn. split; reflexivity.
Qed.

(** ** The Heavy Lifter badge *)

Lemma fold_left_volume (exs : list Exercise) (acc : number) :
  fold_left (fun acc ex => acc + (ex_weight ex * reps ex * sets ex)) exs acc
  == acc + foldr (fun ex total => ex_weight ex * reps ex * sets ex + total) 0 exs.
Proof.
  revert acc. induction exs as [|ex exs IH]; intros acc; simpl.
  - unfold number in *. ring.
  - rewrite IH. unfold number in *. ring.
Qed.

Lemma totalVolume_volume (session : WorkoutSession) :
  Profile.totalVolume session == Spec.volume session.
Proof.
  unfold Profile.totalVolume, Spec.volume.
  rewrite fold_left_volume. apply Qplus_0_l.
Qed.

Lemma volume_master_iff (u : UserProfile) (w : list WorkoutSession) :
  Profile.volume_master_condition u w = true
  <-> exists session, session ∈ w /\ 5000 <= Spec.volume session.
Proof.
  unfold Profile.volume_master_condition.
  rewrite existsb_exists. split.
  - intros (s & Hin & Hle). exists s. split; [by apply list_elem_of_In|].
    apply Qle_bool_iff in Hle. by rewrite <- totalVolume_volume.
  - intros (s & Hin & Hle). exists s. split; [by apply list_elem_of_In|].
    apply Qle_bool_iff. by rewrite totalVolume_volume.
Qed.

(** C9.  The badge named "Heavy Lifter" is unlocked if and only if some
    session of the history has a total volume Σ weight×reps×sets of at
    least 5000; a session whose only exercise has weight 50, reps 10 and
    sets 10 unlocks it. *)
Theorem heavy_lifter_badge
    (tz : TimeZone) (now : Z) (u : UserProfile) (w : list WorkoutSession) :
  exists b : Profile.Badge,
    Profile.badge_named tz now "Heavy Lifter" = Some b
    /\ (Profile.condition b u w = true
        <-> exists session, session ∈ w /\ 5000 <= Spec.volume session)
    /\ (forall session ex,
          session ∈ w -> exercises session = [ex] ->
          ex_weight ex = 50 -> reps ex = 10 -> sets ex = 10 ->
          Spec.volume session == 5000 /\ Profile.condition b u w = true).
Proof.
  eexists. split; [reflexivity|].
  cbn [Profile.condition]. split; [apply volume_master_iff|].
  intros session ex Hin Hex Hw Hr Hs.
  assert (Spec.volume session == 5000) as Hv.
  { unfold Spec.volume. rewrite Hex. simpl. rewrite Hw, Hr, Hs. reflexivity. }
  split; [exact Hv|].
  apply volume_master_iff. exists session. split; [done|].
  rewrite Hv. apply Qle_refl.
Qed.

(** ** The session store *)

Lemma update_absent (updatedWorkout : WorkoutSession) (ws : list WorkoutSession) :
  (forall w, w ∈ ws -> id w <> id updatedWorkout) ->
  map (fun w => if String.eqb (id w) (id updatedWorkout)
                then updatedWorkout else w) ws = ws.
Proof.
  induction ws as [|w ws IH]; intros Habs; simpl; [reflexivity|].
  rewrite IH by (intros w' Hin; apply Habs; by right).
  destruct (String.eqb_spec (id w) (id updatedWorkout)) as [Heq | _];
    [|reflexivity].
  exfalso. apply (Habs w); [by left | exact Heq].
Qed.

Lemma update_unique
    (updatedWorkout : WorkoutSession) (ws : list WorkoutSession)
    (i : nat) (w : WorkoutSession) :
  NoDup (id <$> ws) -> ws !! i = Some w -> id w = id updatedWorkout ->
  map (fun w => if String.eqb (id w) (id updatedWorkout)
                then updatedWorkout else w) ws
  = <[i := updatedWorkout]> ws.
Proof.
  revert i. induction ws as [|w0 ws IH]; intros i Hnd Hi Hid; [done|].
  rewrite fmap_cons in Hnd. apply NoDup_cons in Hnd as [Hfresh Hnd].
  destruct i as [|i]; simpl in *.
  - injection Hi as ->. rewrite Hid, String.eqb_refl. f_equal.
    apply update_absent. intros w' Hin Heq.
    apply Hfresh. rewrite Hid, <- Heq. by apply list_elem_of_fmap_2.
  - rewrite (IH i Hnd Hi Hid). f_equal.
    destruct (String.eqb_spec (id w0) (id updatedWorkout)) as [Heq | _];
      [|reflexivity].
    exfalso. apply Hfresh. rewrite Heq, <- Hid.
    apply list_elem_of_fmap_2. by eapply list_elem_of_lookup_2.
Qed.

(** C7.  In a collection whose session ids are distinct, updating by the
    id of the session at position [i] replaces exactly that entry by the
    update, in full: every other position keeps its session and the order
    and length are preserved.  Updating with an id carried by no entry
    leaves the store unchanged, and a session that was just added under a
    fresh id is the one entry an update by that id replaces. *)
Theorem update_workout_by_id (s : App.State) (updatedWorkout : WorkoutSession) :
  NoDup (id <$> App.workouts s) ->
  let s' := App.handleUpdateWorkout updatedWorkout s in
  (forall i w,
      App.workouts s !! i = Some w -> id w = id updatedWorkout ->
      App.workouts s' = <[i := updatedWorkout]> (App.workouts s)
      /\ App.workouts s' !! i = Some updatedWorkout
      /\ (forall j, j <> i -> App.workouts s' !! j = App.workouts s !! j)
      /\ length (App.workouts s') = length (App.workouts s))
  /\ ((forall w, w ∈ App.workouts s -> id w <> id updatedWorkout) -> s' = s)
  /\ (forall added,
        (forall w, w ∈ App.workouts s -> id w <> id added) ->
        id updatedWorkout = id added ->
        App.workouts (App.handleUpdateWorkout updatedWorkout
                        (App.handleAddWorkout added s))
        = updatedWorkout :: App.workouts s)
  /\ App.meals s' = App.meals s.
Proof.
  intros Hnd s'. subst s'. unfold App.handleUpdateWorkout. simpl.
  split; [|split; [|split]].
  - intros i w Hi Hid.
    rewrite (update_unique updatedWorkout _ i w Hnd Hi Hid).
    split; [reflexivity|]. split; [|split].
    + apply list_lookup_insert_eq. by eapply lookup_lt_Some.
    + intros j Hj. by apply list_lookup_insert_ne.
    + apply length_insert.
  - intros Habs. rewrite (update_absent updatedWorkout _ Habs).
    by destruct s.
  - intros added Hfresh Hid.
    rewrite <- Hid in Hfresh |- *. rewrite String.eqb_refl. f_equal.
    by apply update_absent.
  - reflexivity.
Qed.

(** ** Service wrappers *)

Section Orchestration.
Import GeminiService Failure.

Variable JSON_parse : string -> completion value.

Lemma falsy_some_nonempty (text : string) :
  text <> EmptyString -> falsy (Some text) = false.
Proof.
  intros Hne. simpl. by destruct (String.eqb_spec text EmptyString).
Qed.

Lemma analysis_throws_on_failure (reply : completion GenerateContentResponse) :
  service_failure JSON_parse reply ->
  exists e, analyzeFoodImage JSON_parse reply = Throw e.
Proof.
  intros [e | response Hfalsy | response text e Htext Hparse];
    unfold analyzeFoodImage; simpl.
  - by exists e.
  - destruct (response_text response) as [text|] eqn:Htext; [|by eexists].
    rewrite Hfalsy. by eexists.
  - rewrite Htext. destruct (falsy (Some text)); [by eexists|].
    rewrite Hparse. by exists e.
Qed.

Lemma own_property_absent (props : list (string * value)) (key : string) :
  key ∉ props.*1 -> own_property props key = VUndefined.
Proof.
  induction props as [|[k v] props IH]; intros Hnot; simpl; [reflexivity|].
  rewrite fmap_cons in Hnot. apply not_elem_of_cons in Hnot as [Hne Hnot].
  destruct (String.eqb_spec k key) as [Heq|_]; [by subst|by apply IH].
Qed.

(** C1 (as amended).  A response whose non-empty text parses to a value
    other than [null] makes [analyzeFoodImage] succeed, and every field of
    the result is the property read from the parsed value: a numeric field
    the document lacks is [undefined] in the result, neither an error nor a
    zero.  The call fails when the transport rejects, the text is missing
    or empty, or the text does not parse. *)
Theorem analysis_keeps_parsed_properties
    (response : GenerateContentResponse) (text : string) (data : value) :
  response_text response = Some text ->
  text <> EmptyString ->
  JSON_parse text = Normal data ->
  data <> VNull -> data <> VUndefined ->
  (exists result,
      analyzeFoodImage JSON_parse (Normal response) = Normal result
      /\ get data "name" = Normal (fa_name result)
      /\ get data "calories" = Normal (calories (fa_macros result))
      /\ get data "protein" = Normal (protein (fa_macros result))
      /\ get data "carbs" = Normal (carbs (fa_macros result))
      /\ get data "fat" = Normal (fat (fa_macros result))
      /\ get data "description" = Normal (fa_description result)
      /\ (forall props, data = VObject props ->
            ("calories"%string ∉ props.*1 -> calories (fa_macros result) = VUndefined)
            /\ ("protein"%string ∉ props.*1 -> protein (fa_macros result) = VUndefined)
            /\ ("carbs"%string ∉ props.*1 -> carbs (fa_macros result) = VUndefined)
            /\ ("fat"%string ∉ props.*1 -> fat (fa_macros result) = VUndefined)))
  /\ (forall reply, service_failure JSON_parse reply ->
        exists e, analyzeFoodImage JSON_parse reply = Throw e).
Proof.
  intros Htext Hne Hparse Hnull Hundef.
  split; [|apply analysis_throws_on_failure].
  unfold analyzeFoodImage. simpl. rewrite Htext.
  rewrite (falsy_some_nonempty text Hne), Hparse. simpl.
  destruct data as [| |b|n|s|items|props]; try contradiction; simpl;
    eexists; (split; [reflexivity|]); simpl;
    do 6 (split; [reflexivity|]); intros props' Heq; try discriminate.
  injection Heq as <-. repeat split; apply own_property_absent.
Qed.

(** C5.  Whenever plan generation fails — the transport rejects, the
    response is empty, or its text does not parse — [generateWorkoutPlan]
    returns normally, and what it returns is exactly the static fallback
    plan: the workout "Quick HIIT Blast" with its strategy sentence and the
    three exercises Jumping Jacks (3 × 30), Pushups (3 × 10) and Squats
    (3 × 15), each with weightSuggestion 0 — never an empty or a partial
    plan.  It never throws. *)
Theorem plan_failure_yields_fallback (reply : completion GenerateContentResponse) :
  (service_failure JSON_parse reply ->
     generateWorkoutPlan JSON_parse reply
     = Normal
         (VObject
            [ ("workoutName", VString "Quick HIIT Blast");
              ("strategy", VString "Fallback routine to keep you moving.");
              ("exercises",
                VArray
                  [ VObject [ ("name", VString "Jumping Jacks");
                              ("sets", VNumber 3); ("reps", VNumber 30);
                              ("weightSuggestion", VNumber 0) ];
                    VObject [ ("name", VString "Pushups");
                              ("sets", VNumber 3); ("reps", VNumber 10);
                              ("weightSuggestion", VNumber 0) ];
                    VObject [ ("name", VString "Squats");
                              ("sets", VNumber 3); ("reps", VNumber 15);
                              ("weightSuggestion", VNumber 0) ] ]) ]%string))
  /\ (exists plan, generateWorkoutPlan JSON_parse reply = Normal plan)
  /\ (forall key,
        key ∈ ["workoutName"; "strategy"; "exercises"]%string ->
        get fallbackPlan key <> Normal VUndefined)
  /\ (exists e1 e2 e3,
        get fallbackPlan "exercises" = Normal (VArray [e1; e2; e3])
        /\ forall e, e ∈ [e1; e2; e3] ->
             get e "weightSuggestion" = Normal (VNumber 0)
             /\ (exists n, get e "name" = Normal (VString n) /\ n <> EmptyString)
             /\ (exists sets reps,
                   get e "sets" = Normal (VNumber sets) /\ 0 < sets
                   /\ get e "reps" = Normal (VNumber reps) /\ 0 < reps)).
Proof.
  split; [|split; [|split]].
  - intros [e | response Hfalsy | response text e Htext Hparse];
      unfold generateWorkoutPlan; simpl.
    + reflexivity.
    + destruct (response_text response) as [text|] eqn:Htext; [|reflexivity].
      by rewrite Hfalsy.
    + rewrite Htext. destruct (falsy (Some text)); [reflexivity|].
      by rewrite Hparse.
  - unfold generateWorkoutPlan.
    destruct reply as [response|e]; simpl; [|by eexists].
    destruct (response_text response) as [text|]; [|by eexists].
    destruct (falsy (Some text)); [by eexists|].
    destruct (JSON_parse text); by eexists.
  - intros key Hkey.
    repeat (apply elem_of_cons in Hkey as [-> | Hkey]);
      [| | |by apply elem_of_nil in Hkey]; discriminate.
  - do 3 eexists. split; [reflexivity|].
    intros e He. repeat (apply elem_of_cons in He as [-> | He]);
      [| | |by apply elem_of_nil in He];
      (split; [reflexivity|]);
      (split; [eexists; (split; [reflexivity|]); discriminate|]);
      do 2 eexists; repeat split; reflexivity.
Qed.


(** ** Nutrition handlers *)

(** C3.  When the analysis of a selected image fails (the transport
    rejects, the response is missing, the text does not parse, or
    [analyzeFoodImage] throws for any other reason), the handler still
    completes normally, the store — the meal log in particular — is what it
    was, no analysis result is left behind, the failure is reported by an
    alert, and saving afterwards adds no meal. *)
Theorem failed_analysis_leaves_meals
    (file : Nutrition.File) (reader_result : option string)
    (reply : completion GenerateContentResponse)
    (s : Nutrition.State) (app : App.State) (idNow stampNow : Z) :
  service_failure JSON_parse reply
  \/ (exists e, analyzeFoodImage JSON_parse reply = Throw e) ->
  exists s',
    Nutrition.handleFileSelect JSON_parse (Some file) reader_result reply (s, app)
    = Normal (s', app)
    /\ Nutrition.analysisResult s' = None
    /\ Nutrition.isAnalyzing s' = false
    /\ Nutrition.alerts s'
       = "Failed to analyze image. Please try again."%string :: Nutrition.alerts s
    /\ Nutrition.handleSaveMeal idNow stampNow (s', app) = (s', app)
    /\ App.meals (snd (Nutrition.handleSaveMeal idNow stampNow (s', app)))
       = App.meals app.
Proof.
  intros Hfails.
  assert (exists e, analyzeFoodImage JSON_parse reply = Throw e) as [e He].
  { destruct Hfails as [Hservice | Hthrow]; [|exact Hthrow].
    by apply analysis_throws_on_failure. }
  unfold Nutrition.handleFileSelect.
  destruct reader_result as [content|]; simpl; [rewrite He; simpl|];
    eexists; (split; [reflexivity|]); simpl; repeat split; reflexivity.
Qed.

End Orchestration.

(** ** The workout streak *)

Section Streak.
Import Profile.

#[local] Instance newest_first_trans : Transitive newest_first.
Proof. unfold newest_first. intros a b c ? ?. lia. Qed.

#[local] Instance newest_first_total : Total newest_first.
Proof. unfold newest_first. intros a b. lia. Qed.

Lemma elem_of_Set_values (seen xs : list Z) (x : Z) :
  x ∈ Set_values seen xs <-> x ∈ xs /\ x ∉ seen.
Proof.
  revert seen. induction xs as [|y xs IH]; intros seen; simpl.
  - split; [intros H; by apply elem_of_nil in H | intros [H _]; by apply elem_of_nil in H].
  - case_bool_decide as Hy.
    + rewrite IH, elem_of_cons. split; [tauto|].
      intros [[-> | Hin] Hnot]; [contradiction|tauto].
    + rewrite !elem_of_cons, IH, not_elem_of_cons. split.
      * intros [-> | (Hin & Hne & Hnot)]; tauto.
      * intros [[-> | Hin] Hnot]; [tauto|].
        destruct (decide (x = y)); tauto.
Qed.

Lemma NoDup_Set_values (seen xs : list Z) : NoDup (Set_values seen xs).
Proof.
  revert seen. induction xs as [|y xs IH]; intros seen; simpl.
  - constructor.
  - case_bool_decide as Hy; [apply IH|].
    constructor; [|apply IH].
    rewrite elem_of_Set_values, not_elem_of_cons. tauto.
Qed.

Lemma expectedDate_fixed (tz : TimeZone) (first i : Z) :
  Spec.fixed_offset tz -> expectedDate tz first i = (first - i)%Z.
Proof.
  intros [c Hc]. unfold expectedDate, UTC, LocalTime, midnight, isoDate.
  destruct (Hc (first * msPerDay)%Z) as [-> _].
  destruct (Hc (first * msPerDay + c - i * msPerDay)%Z) as [_ ->].
  replace (first * msPerDay + c - i * msPerDay - c)%Z
    with ((first - i) * msPerDay)%Z by lia.
  apply Z.div_mul. unfold msPerDay. lia.
Qed.

Lemma expectedDate_first (tz : TimeZone) (first : Z) :
  Spec.keeps_midnights tz -> expectedDate tz first 0 = first.
Proof.
  intros Hkeeps. unfold expectedDate.
  rewrite Z.mul_0_l, Z.sub_0_r, Hkeeps.
  unfold midnight, isoDate. apply Z.div_mul. unfold msPerDay. lia.
Qed.

Lemma fixed_offset_keeps_midnights (tz : TimeZone) :
  Spec.fixed_offset tz -> Spec.keeps_midnights tz.
Proof.
  intros [c Hc] day. unfold UTC, LocalTime.
  destruct (Hc (midnight day)) as [-> _].
  destruct (Hc (midnight day + c)%Z) as [_ ->]. lia.
Qed.

Lemma utc_fixed_offset : Spec.fixed_offset Zones.utc.
Proof. exists 0%Z. intros t. split; reflexivity. Qed.

(** New York changes its offset twice in 2024, and never within an hour
    after a UTC midnight. *)
Lemma newYork_keeps_midnights : Spec.keeps_midnights Zones.newYork2024.
Proof.
  intros day. unfold UTC, LocalTime, midnight, msPerDay.
  assert (offsetAtUtc Zones.newYork2024 (day * 86400000) = (-14400000)%Z
          /\ (1710054000000 ≤ day * 86400000 < 1730613600000)%Z
          \/ offsetAtUtc Zones.newYork2024 (day * 86400000) = (-18000000)%Z
             /\ (day * 86400000 < 1710054000000
                 \/ 1730613600000 ≤ day * 86400000)%Z) as Hutc.
  { unfold Zones.newYork2024, Zones.hour. cbn [offsetAtUtc].
    destruct (Z.leb_spec 1710054000000 (day * 86400000));
      destruct (Z.ltb_spec (day * 86400000) 1730613600000); cbn [andb]; lia. }
  destruct Hutc as [[-> Hday] | [-> Hday]];
    unfold Zones.newYork2024, Zones.hour; cbn [offsetAtLocal];
    match goal with
    | |- context [(?a <=? ?b)%Z && (?c <? ?d)%Z] =>
        destruct (Z.leb_spec a b); destruct (Z.ltb_spec c d)
    end; cbn [andb]; lia.
Qed.

(** In a zone of fixed offset the loop counts exactly the days [first - i],
    [first - (i + 1)], ... that are present, when what is pending is in
    decreasing order and not above [first - i]. *)
Lemma streak_loop_run (tz : TimeZone) (first : Z) (pending : list Z) :
  Spec.fixed_offset tz ->
  forall (i : Z) (streak : nat),
    StronglySorted newest_first pending -> NoDup pending ->
    Forall (fun d => (d ≤ first - i)%Z) pending ->
    exists k : nat,
      streak_loop tz first i pending streak = (streak + k)%nat
      /\ (forall j : nat, (j < k)%nat -> (first - (i + Z.of_nat j))%Z ∈ pending)
      /\ (first - (i + Z.of_nat k))%Z ∉ pending.
Proof.
  intros Hfixed.
  induction pending as [|current later IH]; intros i streak Hsorted Hnd Hle; simpl.
  - exists 0%nat. split; [lia|]. split; [lia|]. apply not_elem_of_nil.
  - apply StronglySorted_inv in Hsorted as [Hsorted Hhead].
    apply NoDup_cons in Hnd as [Hfresh Hnd].
    apply Forall_cons in Hle as [Hcur Hle].
    assert (Forall (fun d => (d < current)%Z) later) as Hbelow.
    { rewrite Forall_forall in Hhead |- *. intros d Hd.
      specialize (Hhead d Hd). unfold newest_first in Hhead.
      assert (d <> current) by (intros ->; contradiction). lia. }
    rewrite (expectedDate_fixed tz first i Hfixed).
    destruct (Z.eqb_spec current (first - i)) as [Heq | Hne].
    + destruct (IH (i + 1)%Z (S streak) Hsorted Hnd) as (k & Hk & Hrun & Hgap).
      { eapply Forall_impl; [exact Hbelow|]. simpl. intros d Hd. lia. }
      exists (S k). split; [lia|]. split.
      * intros j Hj. destruct j as [|j].
        -- rewrite Heq. replace (first - (i + Z.of_nat 0))%Z with (first - i)%Z by lia.
           by left.
        -- right. replace (first - (i + Z.of_nat (S j)))%Z
             with (first - (i + 1 + Z.of_nat j))%Z by lia.
           apply Hrun. lia.
      * replace (first - (i + Z.of_nat (S k)))%Z
          with (first - (i + 1 + Z.of_nat k))%Z by lia.
        apply not_elem_of_cons. split; [lia|exact Hgap].
    + exists 0%nat. split; [lia|]. split; [lia|].
      replace (first - (i + Z.of_nat 0))%Z with (first - i)%Z by lia.
      apply not_elem_of_cons. split; [lia|].
      intros Hin. rewrite Forall_forall in Hbelow.
      specialize (Hbelow _ Hin). lia.
Qed.

Lemma streak_loop_grows (tz : TimeZone) (first i : Z) (pending : list Z) (streak : nat) :
  (streak <= streak_loop tz first i pending streak)%nat.
Proof.
  revert i streak. induction pending as [|d rest IH]; intros i streak; simpl.
  - lia.
  - destruct (d =? expectedDate tz first i)%Z; [|lia].
    specialize (IH (i + 1)%Z (S streak)). lia.
Qed.

Lemma yesterday_is_previous_day (now : Z) :
  isoDate (now - 86400000) = (isoDate now - 1)%Z.
Proof.
  unfold isoDate, msPerDay.
  replace (now - 86400000)%Z with (now + (-1) * 86400000)%Z by lia.
  rewrite Z.div_add by lia. lia.
Qed.

Lemma elem_of_uniqueDates (workouts : list WorkoutSession) (d : Z) :
  d ∈ uniqueDates workouts <-> Spec.workout_day workouts d.
Proof.
  unfold uniqueDates, Spec.workout_day.
  rewrite merge_sort_Permutation, elem_of_Set_values.
  change (map ?f ?l) with (f <$> l). rewrite list_elem_of_fmap.
  split.
  - intros [(w & -> & Hin) _]. by exists w.
  - intros (w & Hin & <-). split; [by exists w | apply not_elem_of_nil].
Qed.

Lemma uniqueDates_head (workouts : list WorkoutSession) (first : Z) (rest : list Z) :
  uniqueDates workouts = first :: rest ->
  forall m, Spec.most_recent_day workouts m -> m = first.
Proof.
  intros Hdates m [Hday Hmax].
  assert (StronglySorted newest_first (uniqueDates workouts)) as Hsorted
    by (apply StronglySorted_merge_sort; apply _).
  rewrite Hdates in Hsorted. apply StronglySorted_inv in Hsorted as [_ Hhead].
  assert (first ≤ m)%Z as Hle.
  { apply Hmax, elem_of_uniqueDates. rewrite Hdates. by left. }
  apply elem_of_uniqueDates in Hday. rewrite Hdates in Hday.
  apply elem_of_cons in Hday as [-> | Hin]; [reflexivity|].
  rewrite Forall_forall in Hhead. specialize (Hhead m Hin).
  unfold newest_first in Hhead. lia.
Qed.

Lemma uniqueDates_of_history (workouts : list WorkoutSession) (m : Z) :
  Spec.most_recent_day workouts m ->
  exists rest, uniqueDates workouts = m :: rest.
Proof.
  intros Hm.
  destruct (uniqueDates workouts) as [|first rest] eqn:Hdates.
  - exfalso. destruct Hm as [Hday _].
    apply elem_of_uniqueDates in Hday. rewrite Hdates in Hday.
    by apply elem_of_nil in Hday.
  - exists rest. by rewrite (uniqueDates_head _ _ _ Hdates m Hm).
Qed.

Lemma history_nonempty (workouts : list WorkoutSession) (m : Z) :
  Spec.most_recent_day workouts m -> (length workouts =? 0)%nat = false.
Proof.
  intros [(w & Hin & _) _]. destruct workouts; [by apply elem_of_nil in Hin | done].
Qed.

Lemma consecutive_run_unique (workouts : list WorkoutSession) (m : Z) (k1 k2 : nat) :
  Spec.consecutive_run workouts m k1 -> Spec.consecutive_run workouts m k2 ->
  k1 = k2.
Proof.
  intros [Hrun1 Hgap1] [Hrun2 Hgap2].
  destruct (Nat.lt_trichotomy k1 k2) as [Hlt | [Heq | Hgt]]; [|exact Heq|].
  - exfalso. apply Hgap1, Hrun2, Hlt.
  - exfalso. apply Hgap2, Hrun1, Hgt.
Qed.

(** A history whose most recent day is before yesterday has no streak, in
    every zone. *)
Lemma streak_stale (tz : TimeZone) (now : Z) (workouts : list WorkoutSession) (m : Z) :
  Spec.most_recent_day workouts m ->
  m <> isoDate now -> m <> (isoDate now - 1)%Z ->
  calculateStreak tz now workouts = 0%nat.
Proof.
  intros Hm Ht Hy. unfold calculateStreak.
  rewrite (history_nonempty workouts m Hm).
  destruct (uniqueDates_of_history workouts m Hm) as [rest ->].
  rewrite yesterday_is_previous_day.
  destruct (Z.eqb_spec m (isoDate now)); [contradiction|].
  destruct (Z.eqb_spec m (isoDate now - 1)); [contradiction|].
  reflexivity.
Qed.

Lemma streak_counts_loop (tz : TimeZone) (now : Z) (workouts : list WorkoutSession)
    (m : Z) :
  Spec.most_recent_day workouts m ->
  m = isoDate now \/ m = (isoDate now - 1)%Z ->
  calculateStreak tz now workouts
  = streak_loop tz m 0 (uniqueDates workouts) 0.
Proof.
  intros Hm Halive. unfold calculateStreak.
  rewrite (history_nonempty workouts m Hm).
  destruct (uniqueDates_of_history workouts m Hm) as [rest ->].
  rewrite yesterday_is_previous_day.
  assert (negb (m =? isoDate now)%Z && negb (m =? isoDate now - 1)%Z = false)
    as ->; [|reflexivity].
  destruct Halive as [<- | <-]; rewrite Z.eqb_refl; simpl;
    [reflexivity | apply andb_false_r].
Qed.

(** A history whose most recent day is today or yesterday has a streak of
    at least 1 wherever UTC midnights survive the trip through local
    time. *)
Lemma streak_alive (tz : TimeZone) (now : Z) (workouts : list WorkoutSession) (m : Z) :
  Spec.keeps_midnights tz ->
  Spec.most_recent_day workouts m ->
  m = isoDate now \/ m = (isoDate now - 1)%Z ->
  (1 <= calculateStreak tz now workouts)%nat.
Proof.
  intros Hkeeps Hm Halive.
  rewrite (streak_counts_loop tz now workouts m Hm Halive).
  destruct (uniqueDates_of_history workouts m Hm) as [rest ->].
  cbn [streak_loop]. rewrite (expectedDate_first tz m Hkeeps), Z.eqb_refl.
  apply streak_loop_grows.
Qed.

Lemma streak_of_history (tz : TimeZone) (now : Z) (workouts : list WorkoutSession)
    (m : Z) :
  Spec.fixed_offset tz ->
  Spec.most_recent_day workouts m ->
  m = isoDate now \/ m = (isoDate now - 1)%Z ->
  Spec.consecutive_run workouts m (calculateStreak tz now workouts).
Proof.
  intros Hfixed Hm Halive.
  rewrite (streak_counts_loop tz now workouts m Hm Halive).
  destruct (uniqueDates_of_history workouts m Hm) as [rest Hdates].
  assert (StronglySorted newest_first (m :: rest)) as Hsorted.
  { rewrite <- Hdates. apply StronglySorted_merge_sort; apply _. }
  assert (NoDup (m :: rest)) as Hnd.
  { rewrite <- Hdates. unfold uniqueDates.
    rewrite merge_sort_Permutation. apply NoDup_Set_values. }
  rewrite Hdates.
  destruct (streak_loop_run tz m (m :: rest) Hfixed 0 0 Hsorted Hnd)
    as (k & Hk & Hrun & Hgap).
  { apply StronglySorted_inv in Hsorted as [_ Hhead].
    constructor; [lia|].
    eapply Forall_impl; [exact Hhead|]. unfold newest_first. simpl.
    intros d Hd. lia. }
  rewrite Hk. simpl. split.
  + intros j Hj. apply elem_of_uniqueDates. rewrite Hdates.
    specialize (Hrun j Hj). by rewrite Z.add_0_l in Hrun.
  + intros Hday. apply elem_of_uniqueDates in Hday.
    rewrite Hdates in Hday. by rewrite Z.add_0_l in Hgap.
Qed.

(** C2.  The claim fails on the code where the zone changes its offset
    between the days of the run.  In New York at noon UTC of 4 November
    2024, the day after the clocks went back, a history with sessions on
    4, 3 and 2 November (today, yesterday and the day before) has the
    streak 1, where the claim gives 3: [setDate] goes back one local day
    from 3 November 19:00 EST to 2 November 19:00 EDT, which
    [toISOString] renders as 2 November, so 3 November is never matched.
    With UTC as the zone the same history has the streak 3. *)
Theorem streak_breaks_across_clock_change :
  let now := Samples.november4 in
  let workouts := Samples.novemberHistory in
  (forall d, Spec.workout_day workouts d <->
             d = isoDate now \/ d = (isoDate now - 1)%Z \/ d = (isoDate now - 2)%Z)
  /\ calculateStreak Zones.newYork2024 now workouts = 1%nat
  /\ expectedDate Zones.newYork2024 (isoDate now) 1 = (isoDate now - 2)%Z
  /\ calculateStreak Zones.utc now workouts = 3%nat.
Proof.
  cbv zeta. split; [|split; [|split]]; [|vm_compute; reflexivity..].
  intros d. unfold Spec.workout_day, Samples.novemberHistory. split.
  - intros (w & Hin & <-).
    repeat (apply elem_of_cons in Hin as [-> | Hin]);
      [left | right; left | right; right | by apply elem_of_nil in Hin];
      vm_compute; reflexivity.
  - intros [-> | [-> | ->]]; eexists; (split; [|shelve]).
    + by left.
    + right; by left.
    + right; right; by left.
    Unshelve. all: vm_compute; reflexivity.
Qed.

End Streak.

(** ** The theorems on concrete inputs *)

Section Instances.
Import GeminiService Failure Samples.

(** C1, the claim as stated fails: the service responds with the text of an
    object without properties, every numeric field is missing from the
    parsed document, and [analyzeFoodImage] returns a success whose fields
    are all [undefined] instead of failing. *)
Lemma analysis_succeeds_with_fields_missing :
  JSON_parse_braces "{}" = Normal (VObject [])
  /\ missing_numeric_field (VObject [])
  /\ analyzeFoodImage JSON_parse_braces reply_braces
     = Normal {| fa_name := VUndefined;
                 fa_macros := {| calories := VUndefined; protein := VUndefined;
                                 carbs := VUndefined; fat := VUndefined |};
                 fa_description := VUndefined |}
  /\ ~ (exists e, analyzeFoodImage JSON_parse_braces reply_braces = Throw e).
Proof.
  split; [reflexivity|]. split.
  - exists "calories"%string. split; [by left | reflexivity].
  - split; [reflexivity|]. intros [e He]. discriminate He.
Qed.

Lemma analysis_keeps_parsed_properties_witness :
  exists result,
    analyzeFoodImage JSON_parse_braces reply_braces = Normal result
    /\ calories (fa_macros result) = VUndefined.
Proof.
  destruct (analysis_keeps_parsed_properties JSON_parse_braces
              {| response_text := Some "{}"%string |} "{}" (VObject [])
              eq_refl ltac:(discriminate) eq_refl
              ltac:(discriminate) ltac:(discriminate))
    as [(result & Hrun & _ & _ & _ & _ & _ & _ & Habsent) _].
  exists result. split; [exact Hrun|].
  apply (Habsent [] eq_refl). apply not_elem_of_nil.
Defined.

Lemma plan_failure_yields_fallback_witness :
  generateWorkoutPlan JSON_parse_braces (Throw (Rejected "offline"))
  = Normal fallbackPlan.
Proof.
  apply (proj1 (plan_failure_yields_fallback JSON_parse_braces
                  (Throw (Rejected "offline")))).
  apply transport_error.
Defined.

Lemma failed_analysis_leaves_meals_witness :
  exists s',
    Nutrition.handleFileSelect JSON_parse_braces (Some photo)
      (Some "data:image/png;base64,AAAA"%string) (Throw (Rejected "offline"))
      (idleNutrition, emptyStore) = Normal (s', emptyStore)
    /\ App.meals (snd (Nutrition.handleSaveMeal noon (noon + 1) (s', emptyStore)))
       = [].
Proof.
  destruct (failed_analysis_leaves_meals JSON_parse_braces photo
              (Some "data:image/png;base64,AAAA"%string)
              (Throw (Rejected "offline")) idleNutrition emptyStore
              noon (noon + 1)%Z)
    as (s' & Hrun & _ & _ & _ & _ & Hmeals).
  - left. apply transport_error.
  - exists s'. split; [exact Hrun | exact Hmeals].
Defined.

Lemma update_workout_by_id_witness :
  NoDup (id <$> App.workouts twoSessions)
  /\ App.workouts (App.handleUpdateWorkout tuesdayDone twoSessions)
     = [tuesdayDone; monday].
Proof.
  assert (NoDup (id <$> App.workouts twoSessions)) as Hnd.
  { apply NoDup_cons. split.
    - intros Hin. apply list_elem_of_singleton in Hin. discriminate Hin.
    - apply NoDup_singleton. }
  split; [exact Hnd|].
  destruct (update_workout_by_id twoSessions tuesdayDone Hnd) as [Hreplace _].
  destruct (Hreplace 0%nat tuesday eq_refl eq_refl) as [-> _].
  reflexivity.
Defined.

Lemma finish_session_stats_witness :
  exists session,
    App.workouts
      (snd (Workout.finishSession noon (noon + 1) (logging_125, emptyStore)))
    = [session]
    /\ durationMinutes session = 3 /\ caloriesBurned session = 55.
Proof.
  destruct (finish_session_stats noon (noon + 1) logging_125 emptyStore)
    as [_ Hfinish].
  destruct Hfinish as (session & d & Hstore & _ & _ & _ & _ & _ & _ & _ & _ & _ & Hex).
  - discriminate.
  - discriminate.
  - exists session. split; [exact Hstore|]. apply Hex; reflexivity.
Defined.

Lemma heavy_lifter_badge_witness :
  exists b,
    Profile.badge_named Zones.newYork2024 noon "Heavy Lifter" = Some b
    /\ Profile.condition b profile_18_5 [tuesday] = true.
Proof.
  destruct (heavy_lifter_badge Zones.newYork2024 noon profile_18_5 [tuesday])
    as (b & Hb & _ & Hexample).
  exists b. split; [exact Hb|].
  apply (Hexample tuesday press); try reflexivity. by left.
Defined.

End Instances.

(** * Further properties of the code *)

(** ** More on the streak and the badges *)

Section StreakFacts.
Import Profile.

#[local] Instance newest_first_transitive : Transitive newest_first.
Proof. unfold newest_first. intros a b c ? ?. lia. Qed.

#[local] Instance newest_first_connex : Total newest_first.
Proof. unfold newest_first. intros a b. lia. Qed.

Lemma most_recent_day_exists (workouts : list WorkoutSession) :
  workouts <> [] -> exists m, Spec.most_recent_day workouts m.
Proof.
  intros Hne.
  destruct (uniqueDates workouts) as [|first rest] eqn:Hdates.
  - exfalso. destruct workouts as [|w ws]; [done|].
    assert (isoDate (date w) ∈ uniqueDates (w :: ws)) as Hin.
    { apply elem_of_uniqueDates. exists w. split; [by left | reflexivity]. }
    rewrite Hdates in Hin. by apply elem_of_nil in Hin.
  - exists first. split.
    + apply elem_of_uniqueDates. rewrite Hdates. by left.
    + intros d Hd. apply elem_of_uniqueDates in Hd. rewrite Hdates in Hd.
      assert (StronglySorted newest_first (first :: rest)) as Hsorted.
      { rewrite <- Hdates. apply StronglySorted_merge_sort; apply _. }
      apply StronglySorted_inv in Hsorted as [_ Hhead].
      apply elem_of_cons in Hd as [-> | Hin]; [lia|].
      rewrite Forall_forall in Hhead. apply (Hhead d Hin).
Qed.

Lemma most_recent_day_unique (workouts : list WorkoutSession) (m1 m2 : Z) :
  Spec.most_recent_day workouts m1 -> Spec.most_recent_day workouts m2 -> m1 = m2.
Proof.
  intros [Hd1 Hmax1] [Hd2 Hmax2].
  specialize (Hmax1 m2 Hd2). specialize (Hmax2 m1 Hd1). lia.
Qed.

Lemma run_is_positive (workouts : list WorkoutSession) (m : Z) (k : nat) :
  Spec.workout_day workouts m -> Spec.consecutive_run workouts m k -> (1 <= k)%nat.
Proof.
  intros Hday [_ Hgap]. destruct k as [|k]; [|lia].
  exfalso. apply Hgap. by rewrite Z.sub_0_r.
Qed.

#[local] Instance newest_first_antisymmetric : AntiSymm (=) newest_first.
Proof. unfold newest_first. intros a b ? ?. lia. Qed.

Lemma uniqueDates_same_days (workouts workouts' : list WorkoutSession) :
  (forall d, Spec.workout_day workouts d <-> Spec.workout_day workouts' d) ->
  uniqueDates workouts = uniqueDates workouts'.
Proof.
  intros Hsame. apply (StronglySorted_unique newest_first).
  - apply StronglySorted_merge_sort; apply _.
  - apply StronglySorted_merge_sort; apply _.
  - apply NoDup_Permutation.
    + unfold uniqueDates. rewrite merge_sort_Permutation. apply NoDup_Set_values.
    + unfold uniqueDates. rewrite merge_sort_Permutation. apply NoDup_Set_values.
    + intros d. rewrite !elem_of_uniqueDates. apply Hsame.
Qed.

(** X1.  The streak depends only on the set of days that have a workout:
    the order of the history and several sessions on one day make no
    difference, in any time zone. *)
Theorem streak_depends_on_days_only
    (tz : TimeZone) (now : Z) (workouts workouts' : list WorkoutSession) :
  (forall d, Spec.workout_day workouts d <-> Spec.workout_day workouts' d) ->
  calculateStreak tz now workouts = calculateStreak tz now workouts'.
Proof.
  intros Hsame.
  assert (forall ws : list WorkoutSession,
            ws <> [] -> exists d, Spec.workout_day ws d) as Hhas.
  { intros [|w ws] Hne; [done|].
    exists (isoDate (date w)), w. split; [by left | reflexivity]. }
  assert (forall d, ~ Spec.workout_day [] d) as Hnone.
  { intros d (w & Hin & _). by apply elem_of_nil in Hin. }
  destruct (decide (workouts = [])) as [-> | Hne].
  { destruct (decide (workouts' = [])) as [-> | Hne']; [reflexivity|].
    destruct (Hhas _ Hne') as [d Hd]. apply Hsame in Hd. by apply Hnone in Hd. }
  assert (workouts' <> []) as Hne'.
  { intros ->. destruct (Hhas _ Hne) as [d Hd].
    apply Hsame in Hd. by apply Hnone in Hd. }
  unfold calculateStreak.
  rewrite (uniqueDates_same_days workouts workouts' Hsame).
  destruct workouts as [|w0 ws]; [done|].
  destruct workouts' as [|w0' ws']; [done|].
  reflexivity.
Qed.

Lemma streak_loop_bound (tz : TimeZone) (first i : Z) (pending : list Z)
    (streak : nat) :
  (streak_loop tz first i pending streak <= streak + length pending)%nat.
Proof.
  revert i streak. induction pending as [|d rest IH]; intros i streak; simpl.
  - lia.
  - destruct (d =? expectedDate tz first i)%Z; [|lia].
    specialize (IH (i + 1)%Z (S streak)). lia.
Qed.

Lemma length_Set_values (seen xs : list Z) :
  (length (Set_values seen xs) <= length xs)%nat.
Proof.
  revert seen. induction xs as [|x xs IH]; intros seen; simpl; [lia|].
  case_bool_decide; [specialize (IH seen) | specialize (IH (x :: seen))];
    simpl; lia.
Qed.

Lemma streak_bounded (tz : TimeZone) (now : Z) (workouts : list WorkoutSession) :
  (calculateStreak tz now workouts <= length workouts)%nat.
Proof.
  unfold calculateStreak.
  destruct (length workouts =? 0)%nat; [lia|].
  assert (length (uniqueDates workouts) <= length workouts)%nat as Hlen.
  { unfold uniqueDates. rewrite merge_sort_Permutation.
    etrans; [apply length_Set_values|]. by rewrite length_map. }
  destruct (uniqueDates workouts) as [|first rest]; [lia|].
  destruct (negb _ && negb _); [lia|].
  etrans; [apply streak_loop_bound|]. exact Hlen.
Qed.

Lemma streak_positive_iff (tz : TimeZone) (now : Z) (workouts : list WorkoutSession) :
  Spec.keeps_midnights tz ->
  (1 <= calculateStreak tz now workouts)%nat <->
  exists m, Spec.most_recent_day workouts m
            /\ (m = isoDate now \/ m = (isoDate now - 1)%Z).
Proof.
  intros Hkeeps. split.
  - intros Hpos.
    destruct (decide (workouts = [])) as [-> | Hne];
      [unfold calculateStreak in Hpos; simpl in Hpos; lia|].
    destruct (most_recent_day_exists workouts Hne) as [m Hm].
    exists m. split; [exact Hm|].
    destruct (decide (m = isoDate now \/ m = (isoDate now - 1)%Z)) as [|Hst];
      [done|].
    rewrite (streak_stale tz now workouts m Hm) in Hpos; [lia|tauto..].
  - intros (m & Hm & Halive). by apply (streak_alive tz now workouts m).
Qed.

(** X2.  In every zone the streak never exceeds the number of logged
    sessions.  Where UTC midnights survive the trip through local time
    and back (no UTC midnight falls into an hour that a clock change
    repeats), the streak is at least 1 exactly when the most recent
    workout day is today or yesterday. *)
Theorem streak_alive_and_bounded
    (tz : TimeZone) (now : Z) (workouts : list WorkoutSession) :
  (calculateStreak tz now workouts <= length workouts)%nat
  /\ (Spec.keeps_midnights tz ->
      ((1 <= calculateStreak tz now workouts)%nat <->
       exists m, Spec.most_recent_day workouts m
                 /\ (m = isoDate now \/ m = (isoDate now - 1)%Z))).
Proof.
  split; [apply streak_bounded | apply streak_positive_iff].
Qed.

(** X3.  The badges come in chains: "Unstoppable" is never unlocked
    without "On Fire" and "Club 10", and "On Fire", "Club 10" and "Heavy
    Lifter" are never unlocked without "First Step".  With an empty
    history none of these five is unlocked. *)
Theorem badge_chains
    (tz : TimeZone) (now : Z) (u : UserProfile) (w : list WorkoutSession) :
  (Catalog.unlocked tz now "Unstoppable" u w = true ->
     Catalog.unlocked tz now "On Fire" u w = true
     /\ Catalog.unlocked tz now "Club 10" u w = true)
  /\ (Catalog.unlocked tz now "On Fire" u w = true ->
      Catalog.unlocked tz now "First Step" u w = true)
  /\ (Catalog.unlocked tz now "Club 10" u w = true ->
      Catalog.unlocked tz now "First Step" u w = true)
  /\ (Catalog.unlocked tz now "Heavy Lifter" u w = true ->
      Catalog.unlocked tz now "First Step" u w = true)
  /\ (w = [] ->
      forall display,
        display ∈ ["First Step"; "On Fire"; "Unstoppable"; "Club 10"; "Heavy Lifter"]%string ->
        Catalog.unlocked tz now display u w = false).
Proof.
  pose proof (streak_bounded tz now w) as Hbound.
  unfold Catalog.unlocked, badge_named. cbn [BADGES find badge_name String.eqb
    Ascii.eqb Bool.eqb condition].
  split; [|split; [|split; [|split]]].
  - intros H%Nat.leb_le. split; apply Nat.leb_le; lia.
  - intros H%Nat.leb_le. apply Nat.leb_le. lia.
  - intros H%Nat.leb_le. apply Nat.leb_le. lia.
  - intros H. apply Nat.leb_le. destruct w as [|s w]; [discriminate H | simpl; lia].
  - intros -> display Hin.
    repeat (apply elem_of_cons in Hin as [-> | Hin]);
      [reflexivity..|by apply elem_of_nil in Hin].
Qed.

(** X23.  In a zone whose offset never changes the streak is what the
    counting rule says: 0 for an empty history and when the most recent
    workout day is neither today nor yesterday, and otherwise the number
    of consecutive workout days counted back from the most recent one up
    to the first gap.  Workout days {today, yesterday, the day before}
    give 3, {today, three days ago} give 1, {three days ago} gives 0. *)
Theorem streak_in_fixed_offset_zone
    (tz : TimeZone) (now : Z) (workouts : list WorkoutSession) :
  Spec.fixed_offset tz ->
  let today := isoDate now in
  let streak := calculateStreak tz now workouts in
  (workouts = [] -> streak = 0%nat)
  /\ (forall m, Spec.most_recent_day workouts m ->
        m <> today -> m <> (today - 1)%Z -> streak = 0%nat)
  /\ (forall m, Spec.most_recent_day workouts m ->
        m = today \/ m = (today - 1)%Z ->
        Spec.consecutive_run workouts m streak)
  /\ ((forall d, Spec.workout_day workouts d <->
                 d = today \/ d = (today - 1)%Z \/ d = (today - 2)%Z) ->
      streak = 3%nat)
  /\ ((forall d, Spec.workout_day workouts d <->
                 d = today \/ d = (today - 3)%Z) ->
      streak = 1%nat)
  /\ ((forall d, Spec.workout_day workouts d <-> d = (today - 3)%Z) ->
      streak = 0%nat).
Proof.
  intros Hfixed today streak. subst today streak.
  split; [by intros ->|].
  split; [intros m Hm; apply (streak_stale tz now workouts m Hm)|].
  split; [intros m Hm; apply (streak_of_history tz now workouts m Hfixed Hm)|].
  split; [|split].
  - intros Hdays.
    assert (Spec.most_recent_day workouts (isoDate now)) as Hm.
    { split; [apply Hdays; tauto|]. intros d Hd. apply Hdays in Hd. lia. }
    apply (consecutive_run_unique workouts (isoDate now)).
    + apply (streak_of_history tz now workouts _ Hfixed Hm). by left.
    + split.
      * intros j Hj. apply Hdays. lia.
      * intros Hd. apply Hdays in Hd. lia.
  - intros Hdays.
    assert (Spec.most_recent_day workouts (isoDate now)) as Hm.
    { split; [apply Hdays; tauto|]. intros d Hd. apply Hdays in Hd. lia. }
    apply (consecutive_run_unique workouts (isoDate now)).
    + apply (streak_of_history tz now workouts _ Hfixed Hm). by left.
    + split.
      * intros j Hj. apply Hdays. lia.
      * intros Hd. apply Hdays in Hd. lia.
  - intros Hdays.
    assert (Spec.most_recent_day workouts (isoDate now - 3)%Z) as Hm.
    { split; [by apply Hdays|]. intros d Hd. apply Hdays in Hd. lia. }
    apply (streak_stale tz now workouts _ Hm); lia.
Qed.

End StreakFacts.

(** ** The logger and the store *)

Section LoggerFacts.
Import Workout Logger Invariants.

Lemma finishSession_store (idNow dateNow : Z) (w : State) (app : App.State) :
  App.workouts (finishSession idNow dateNow (w, app)).2
  = if String.eqb (currentSessionName w) EmptyString
       || (length (currentExercises w) =? 0)%nat
    then App.workouts app
    else finishedSession idNow dateNow w :: App.workouts app.
Proof.
  unfold finishSession.
  destruct (String.eqb _ _ || _); reflexivity.
Qed.

Lemma finishSession_permitted (idNow dateNow : Z) (w : State) (app : App.State) :
  currentSessionName w <> EmptyString -> currentExercises w <> [] ->
  App.workouts (finishSession idNow dateNow (w, app)).2
  = finishedSession idNow dateNow w :: App.workouts app.
Proof.
  intros Hname Hexs. rewrite finishSession_store.
  destruct (String.eqb_spec (currentSessionName w) EmptyString); [done|].
  destruct (currentExercises w); [done|]. reflexivity.
Qed.

Lemma finishedSession_well_formed (idNow dateNow : Z) (w : State) :
  currentSessionName w <> EmptyString -> currentExercises w <> [] ->
  (idNow ≤ dateNow)%Z ->
  well_formed (finishedSession idNow dateNow w).
Proof.
  intros Hname Hexs Hread.
  assert (1 ≤ Math_max 1 (Math_ceil (inject_Z (elapsedSeconds w) / 60)%Q))%Z
    as Hd by (unfold Math_max; lia).
  assert (1 ≤ Z.of_nat (length (currentExercises w)))%Z as Hn.
  { destruct (currentExercises w); [done | simpl; lia]. }
  split; unfold finishedSession;
    cbn [durationMinutes caloriesBurned name exercises id date goalAchieved];
    try done.
  - change 1 with (inject_Z 1). by rewrite <- Zle_Qle.
  - rewrite floor_of_integers. change 25 with (inject_Z 25).
    rewrite <- Zle_Qle. lia.
  - by exists idNow.
Qed.

(** X4.  Finishing a session makes the streak alive.  Where UTC
    midnights survive the trip through local time and back: if no stored
    session is dated after the day of the finish, then on that day and on
    the day after it the streak of the new history is at least 1; and
    "First Step" is unlocked whenever the page is shown. *)
Theorem finish_keeps_streak_alive
    (tz : TimeZone) (idNow dateNow viewed : Z)
    (w : State) (app : App.State) (u : UserProfile) :
  Spec.keeps_midnights tz ->
  currentSessionName w <> EmptyString -> currentExercises w <> [] ->
  (forall s, s ∈ App.workouts app ->
             (Profile.isoDate (date s) ≤ Profile.isoDate dateNow)%Z) ->
  let history := App.workouts (finishSession idNow dateNow (w, app)).2 in
  (Profile.isoDate viewed = Profile.isoDate dateNow
   \/ Profile.isoDate viewed = (Profile.isoDate dateNow + 1)%Z ->
   (1 <= Profile.calculateStreak tz viewed history)%nat)
  /\ Catalog.unlocked tz viewed "First Step" u history = true.
Proof.
  intros Hkeeps Hname Hexs Hpast history. subst history.
  rewrite (finishSession_permitted idNow dateNow w app Hname Hexs).
  split; [|reflexivity].
  intros Hviewed.
  apply (streak_positive_iff tz viewed _ Hkeeps). exists (Profile.isoDate dateNow).
  split; [|lia]. split.
  - exists (finishedSession idNow dateNow w). split; [by left | reflexivity].
  - intros d (s & Hin & <-).
    apply elem_of_cons in Hin as [-> | Hin]; [reflexivity | by apply Hpast].
Qed.

Lemma NoDup_fmap_eq {A B} (f : A -> B) (l : list A) (x y : A) :
  NoDup (f <$> l) -> x ∈ l -> y ∈ l -> f x = f y -> x = y.
Proof.
  induction l as [|a l IH]; intros Hnd Hx Hy Hf; [by apply elem_of_nil in Hx|].
  rewrite fmap_cons in Hnd. apply NoDup_cons in Hnd as [Hfresh Hnd].
  apply elem_of_cons in Hx as [-> | Hx]; apply elem_of_cons in Hy as [-> | Hy].
  - reflexivity.
  - exfalso. apply Hfresh. rewrite Hf. by apply list_elem_of_fmap_2.
  - exfalso. apply Hfresh. rewrite <- Hf. by apply list_elem_of_fmap_2.
  - by apply IH.
Qed.

Lemma toggle_store (s : WorkoutSession) (app : App.State) (i : nat) :
  NoDup (id <$> App.workouts app) -> App.workouts app !! i = Some s ->
  App.workouts (toggleGoalAchieved s app) = <[i := flipped s]> (App.workouts app).
Proof.
  intros Hnd Hi. unfold toggleGoalAchieved, App.handleUpdateWorkout. simpl.
  by apply (update_unique (flipped s) _ i s).
Qed.

Lemma sorted_by_date (l : list WorkoutSession) :
  StronglySorted (fun a b => (date b < date a)%Z) l
  <-> StronglySorted (fun x y => (y < x)%Z) (date <$> l).
Proof.
  induction l as [|a l IH].
  - split; constructor.
  - rewrite fmap_cons. split; intros [Hs Hhead]%StronglySorted_inv;
      (constructor; [by apply IH|]).
    + by apply Forall_fmap.
    + by apply Forall_fmap in Hhead.
Qed.

Lemma flipped_well_formed (s : WorkoutSession) :
  well_formed s -> well_formed (flipped s).
Proof. intros [? ? ? ? ? ?]. split; simpl; eauto. Qed.

Lemma finish_preserves_ok (idNow dateNow : Z) (w : State) (app : App.State) :
  store_ok app ->
  (idNow ≤ dateNow)%Z ->
  (forall s, s ∈ App.workouts app -> (date s < idNow)%Z) ->
  store_ok (finishSession idNow dateNow (w, app)).2.
Proof.
  intros (Hnd & Hwf & Hsorted) Hread Hclock. unfold store_ok.
  rewrite finishSession_store.
  destruct (String.eqb_spec (currentSessionName w) EmptyString) as [|Hname];
    [done|].
  destruct (Nat.eqb_spec (length (currentExercises w)) 0) as [|Hlen];
    [done|].
  assert (currentExercises w <> []) as Hexs by (intros Heq; by rewrite Heq in Hlen).
  cbn [orb]. split; [|split].
  - rewrite fmap_cons. apply NoDup_cons. split; [|exact Hnd].
    intros (s & Hid & Hs)%list_elem_of_fmap.
    rewrite Forall_forall in Hwf.
    destruct (Hwf s Hs) as [_ _ _ _ (reading & Hstamp & Hearlier) _].
    simpl in Hid. rewrite Hstamp in Hid. apply (inj pretty) in Hid.
    specialize (Hclock s Hs). lia.
  - constructor; [by apply finishedSession_well_formed | exact Hwf].
  - constructor; [exact Hsorted|].
    apply Forall_forall. intros s Hs. simpl. specialize (Hclock s Hs). lia.
Qed.

Lemma toggle_preserves_ok (s : WorkoutSession) (app : App.State) :
  store_ok app -> s ∈ App.workouts app ->
  store_ok (toggleGoalAchieved s app).
Proof.
  intros (Hnd & Hwf & Hsorted) Hin. unfold store_ok.
  apply list_elem_of_lookup in Hin as [i Hi].
  rewrite (toggle_store s app i Hnd Hi). split; [|split].
  - rewrite list_fmap_insert. simpl.
    rewrite list_insert_id; [exact Hnd|]. by rewrite list_lookup_fmap, Hi.
  - apply Forall_insert; [exact Hwf|].
    apply flipped_well_formed. rewrite Forall_forall in Hwf.
    apply Hwf. by eapply list_elem_of_lookup_2.
  - apply sorted_by_date. rewrite list_fmap_insert. simpl.
    rewrite list_insert_id; [by apply sorted_by_date|].
    by rewrite list_lookup_fmap, Hi.
Qed.

(** X5.  In every store built from the empty one by finishing sessions,
    toggling goal flags and adding meals, where at each finish the clock
    read for the identifier is not after the clock read for the date and
    is after the date of every session stored before: session identifiers
    are pairwise distinct, the sessions are ordered newest first, and each
    session has a duration of at least one minute, at least 25 calories, a
    name, an exercise, an identifier that prints a clock reading not after
    its date, and a defined goal flag. *)
Theorem built_store_invariant (app : App.State) :
  built app ->
  NoDup (id <$> App.workouts app)
  /\ Forall well_formed (App.workouts app)
  /\ StronglySorted (fun a b => (date b < date a)%Z) (App.workouts app).
Proof.
  induction 1 as [view | idNow dateNow w app Hb IH Hread Hclock | s app Hb IH Hin
                 | meal app Hb IH].
  - simpl. repeat split; constructor.
  - by apply finish_preserves_ok.
  - by apply toggle_preserves_ok.
  - exact IH.
Qed.

Lemma fold_left_sum {A} (f : A -> number) (l : list A) (acc : number) :
  fold_left (fun acc x => acc + f x) l acc
  == acc + foldr (fun x total => f x + total) 0 l.
Proof.
  revert acc. induction l as [|x l IH]; intros acc; simpl.
  - unfold number in *. ring.
  - rewrite IH. unfold number in *. ring.
Qed.

(** X6.  On a store the application built, the dashboard totals are
    bounded from below by the number of sessions: at least one active
    minute and at least 25 burned calories per session. *)
Theorem totals_bounded_below (app : App.State) :
  built app ->
  inject_Z (Z.of_nat (length (App.workouts app)))
    <= DashboardView.activeMinutes (App.workouts app)
  /\ 25 * inject_Z (Z.of_nat (length (App.workouts app)))
    <= DashboardView.totalCaloriesBurned (App.workouts app).
Proof.
  intros Hbuilt.
  assert (Forall well_formed (App.workouts app)) as Hwf.
  { enough (store_ok app) as (_ & Hwf & _) by exact Hwf.
    induction Hbuilt as [view | now w app Hb IH Hclock | s app Hb IH Hin
                        | meal app Hb IH];
      [simpl; repeat split; constructor | by apply finish_preserves_ok
      | by apply toggle_preserves_ok | exact IH]. }
  unfold DashboardView.activeMinutes, DashboardView.totalCaloriesBurned.
  rewrite !fold_left_sum, !Qplus_0_l.
  induction Hwf as [|s l [Hd Hc _ _ _ _] _ [IH1 IH2]]; cbn [length foldr].
  - split; vm_compute; discriminate.
  - rewrite Nat2Z.inj_succ. unfold Z.succ. rewrite inject_Z_plus.
    change (inject_Z 1) with 1. split; lra.
Qed.

(** X7.  With distinct identifiers, toggling the goal flag of the session
    at position [i] changes that entry only, and only its flag; toggling
    the entry again restores the store when the flag was defined to begin
    with. *)
Theorem toggle_goal_flag (app : App.State) (s : WorkoutSession) (i : nat) :
  NoDup (id <$> App.workouts app) -> App.workouts app !! i = Some s ->
  let app' := toggleGoalAchieved s app in
  App.workouts app' = <[i := flipped s]> (App.workouts app)
  /\ App.workouts app' !! i = Some (flipped s)
  /\ goalAchieved (flipped s) = Some (negb (default false (goalAchieved s)))
  /\ (name (flipped s), exercises (flipped s), durationMinutes (flipped s),
      caloriesBurned (flipped s), date (flipped s), id (flipped s))
     = (name s, exercises s, durationMinutes s, caloriesBurned s, date s, id s)
  /\ App.meals app' = App.meals app
  /\ (is_Some (goalAchieved s) ->
      toggleGoalAchieved (flipped s) app' = app).
Proof.
  intros Hnd Hi app'. subst app'.
  pose proof (toggle_store s app i Hnd Hi) as Hstore.
  split; [exact Hstore|]. split.
  { rewrite Hstore. apply list_lookup_insert_eq. by eapply lookup_lt_Some. }
  split; [reflexivity|]. split; [reflexivity|]. split; [reflexivity|].
  intros [b Hb].
  assert (flipped (flipped s) = s) as Hback.
  { destruct s as [? ? ? ? ? ? ? flag]. simpl in Hb. subst flag.
    unfold flipped. simpl. by rewrite negb_involutive. }
  assert (App.workouts (toggleGoalAchieved (flipped s) (toggleGoalAchieved s app))
          = App.workouts app) as Hw.
  { rewrite (toggle_store (flipped s) _ i).
    - rewrite Hstore, Hback, list_insert_insert_eq. by apply list_insert_id.
    - rewrite Hstore, list_fmap_insert. simpl.
      rewrite list_insert_id; [exact Hnd|]. by rewrite list_lookup_fmap, Hi.
    - rewrite Hstore. apply list_lookup_insert_eq. by eapply lookup_lt_Some. }
  destruct app as [view ws ms]. unfold toggleGoalAchieved, App.handleUpdateWorkout in *.
  simpl in *. by rewrite Hw.
Qed.

Lemma iter_tick_idle (n : nat) (w : State) :
  isTimerRunning w && isLogging w = false -> Nat.iter n tick w = w.
Proof.
  intros Hidle. induction n as [|n IH]; simpl; [reflexivity|].
  rewrite IH. unfold tick. by rewrite Hidle.
Qed.

Lemma iter_tick_running (n : nat) (w : State) :
  isTimerRunning w = true -> isLogging w = true ->
  elapsedSeconds (Nat.iter n tick w) = (elapsedSeconds w + Z.of_nat n)%Z
  /\ isTimerRunning (Nat.iter n tick w) = true
  /\ isLogging (Nat.iter n tick w) = true.
Proof.
  intros Hrun Hlog. induction n as [|n (IHe & IHr & IHl)]; simpl.
  - split; [lia | done].
  - unfold tick at 1 3 5. rewrite IHr, IHl. simpl. rewrite IHe.
    split; [lia | done].
Qed.

(** X8.  The elapsed-time counter: [n] ticks after a start read [n]
    seconds; ticks change nothing while the timer is paused or the logger
    is idle, so after a pause, and after a cancel, the count stays where it
    was. *)
Theorem timer_counts_running_seconds (n m : nat) (w : State) :
  elapsedSeconds (Nat.iter n tick (startLogging w)) = Z.of_nat n
  /\ (isTimerRunning w && isLogging w = false -> Nat.iter m tick w = w)
  /\ elapsedSeconds
       (Nat.iter m tick (toggleTimer (Nat.iter n tick (startLogging w))))
     = Z.of_nat n
  /\ Nat.iter m tick (cancelLogging w) = cancelLogging w.
Proof.
  destruct (iter_tick_running n (startLogging w) eq_refl eq_refl)
    as (He & Hr & Hl).
  simpl in He. split; [exact He|]. split; [apply iter_tick_idle|]. split.
  - rewrite iter_tick_idle; [exact He|]. simpl. by rewrite Hr.
  - by apply iter_tick_idle.
Qed.

(** X9.  Toggling an exercise twice restores the list; one toggle keeps
    the length and the order, flips [completed] on the exercises with that
    identifier and leaves every other exercise untouched. *)
Theorem toggle_exercise_involution (ident : string) (w : State) :
  toggleExerciseComplete ident (toggleExerciseComplete ident w) = w
  /\ length (currentExercises (toggleExerciseComplete ident w))
     = length (currentExercises w)
  /\ (forall i e,
        currentExercises w !! i = Some e ->
        exists e',
          currentExercises (toggleExerciseComplete ident w) !! i = Some e'
          /\ (ex_id e', ex_name e', sets e', reps e', ex_weight e')
             = (ex_id e, ex_name e, sets e, reps e, ex_weight e)
          /\ completed e'
             = if String.eqb (ex_id e) ident then negb (completed e)
               else completed e).
Proof.
  split; [|split].
  - destruct w as [? ? ? ? exs ? ? ?].
    unfold toggleExerciseComplete, setCurrentExercises. simpl. f_equal.
    induction exs as [|e exs IH]; simpl; [reflexivity|].
    rewrite IH. f_equal.
    destruct (String.eqb_spec (ex_id e) ident) as [Heq | Hne]; simpl.
    + destruct e as [eid ? ? ? ? done]. simpl in *. subst eid.
      by rewrite String.eqb_refl, negb_involutive.
    + by destruct (String.eqb_spec (ex_id e) ident).
  - simpl. apply length_map.
  - intros i e Hi. simpl. change (map ?f ?l) with (f <$> l).
    rewrite list_lookup_fmap, Hi. simpl. eexists. split; [reflexivity|].
    destruct (String.eqb (ex_id e) ident); split; reflexivity.
Qed.

End LoggerFacts.

(** ** Nutrition: from a photo to a meal *)

Section NutritionFacts.
Import GeminiService Nutrition.

Variable JSON_parse : string -> completion value.

(** X10.  Selecting a file never throws, never touches the store and never
    leaves the analysing flag set; the preview is whatever the reader
    produced. *)
Theorem file_select_frame
    (file : option File) (reader_result : option string)
    (reply : completion GenerateContentResponse)
    (s : State) (app : App.State) :
  exists s',
    handleFileSelect JSON_parse file reader_result reply (s, app) = Normal (s', app)
    /\ (file = None -> s' = s)
    /\ (is_Some file ->
        isAnalyzing s' = false /\ preview s' = reader_result
        /\ (analysisResult s' = None \/ alerts s' = alerts s)).
Proof.
  unfold handleFileSelect. destruct file as [file|].
  - destruct reader_result as [content|]; simpl.
    + destruct (analyzeFoodImage JSON_parse reply) as [result|e]; simpl;
        eexists; (split; [reflexivity|]); (split; [done|]); intros _; simpl; auto.
    + eexists; (split; [reflexivity|]); (split; [done|]); intros _; simpl; auto.
  - exists s. split; [reflexivity|]. split; [done|]. by intros [? ?].
Qed.

(** X11.  After a successful analysis of a readable photo, saving adds
    exactly one meal, at the head of the log, carrying the analysed name
    and macros and the photo; the workouts are untouched, the form is
    cleared, and saving again adds nothing. *)
Theorem analysed_meal_is_saved_once
    (file : File) (content : string)
    (reply : completion GenerateContentResponse) (result : FoodAnalysis)
    (s : State) (app : App.State) (idNow stampNow idNow' stampNow' : Z) :
  analyzeFoodImage JSON_parse reply = Normal result ->
  content <> EmptyString ->
  exists s1 s2,
    handleFileSelect JSON_parse (Some file) (Some content) reply (s, app)
    = Normal (s1, app)
    /\ analysisResult s1 = Some result
    /\ alerts s1 = alerts s
    /\ handleSaveMeal idNow stampNow (s1, app)
       = (s2, App.handleAddMeal
                {| ml_id := pretty idNow; ml_name := fa_name result;
                   timestamp := stampNow; macros := fa_macros result;
                   imageUrl := Some content |} app)
    /\ App.workouts (handleSaveMeal idNow stampNow (s1, app)).2
       = App.workouts app
    /\ length (App.meals (handleSaveMeal idNow stampNow (s1, app)).2)
       = S (length (App.meals app))
    /\ preview s2 = None /\ analysisResult s2 = None
    /\ handleSaveMeal idNow' stampNow' (handleSaveMeal idNow stampNow (s1, app))
       = handleSaveMeal idNow stampNow (s1, app).
Proof.
  intros Hok Hcontent. unfold handleFileSelect. simpl. rewrite Hok. simpl.
  eexists _, _. split; [reflexivity|]. split; [reflexivity|].
  split; [reflexivity|].
  unfold handleSaveMeal. simpl.
  destruct (String.eqb_spec content EmptyString) as [|_]; [done|]. simpl.
  repeat split; reflexivity.
Qed.

End NutritionFacts.

(** ** The fallbacks of the other service wrappers *)

Section FallbackFacts.
Import GeminiService.

Section Rethrow.

Variable JSON_parse : string -> completion value.

(** X12.  The error that [analyzeFoodImage] hands to its caller is the
    original one: the rejection of the request as it is, the parser's
    error as it is, a fixed error for a missing or empty text, and a
    [TypeError] when the text parses to [null]. *)
Theorem analysis_rethrows_the_cause
    (response : GenerateContentResponse) (text : string) (e : exn) :
  analyzeFoodImage JSON_parse (Throw e) = Throw e
  /\ (falsy (response_text response) = true ->
      analyzeFoodImage JSON_parse (Normal response)
      = Throw (Error "No response from AI"))
  /\ (response_text response = Some text -> text <> EmptyString ->
      JSON_parse text = Throw e ->
      analyzeFoodImage JSON_parse (Normal response) = Throw e)
  /\ (response_text response = Some text -> text <> EmptyString ->
      JSON_parse text = Normal VNull ->
      analyzeFoodImage JSON_parse (Normal response) = Throw TypeError).
Proof.
  unfold analyzeFoodImage. simpl. split; [reflexivity|]. split; [|split].
  - intros Hf. destruct (response_text response); simpl in *; [|reflexivity].
    by rewrite Hf.
  - intros -> Hne Hparse. simpl.
    destruct (String.eqb_spec text EmptyString); [done|].
    by rewrite Hparse.
  - intros -> Hne Hparse. simpl.
    destruct (String.eqb_spec text EmptyString); [done|].
    by rewrite Hparse.
Qed.

End Rethrow.

Lemma falsy_false_text (t : option string) :
  falsy t = false -> exists s, t = Some s /\ s <> EmptyString.
Proof.
  destruct t as [s|]; simpl; [|discriminate].
  intros H. exists s. split; [reflexivity|].
  by destruct (String.eqb_spec s EmptyString).
Qed.

(** X13.  The dashboard insight is never an error and never empty: a
    non-empty response text is passed on as it is, a missing or empty text
    gives "Stay consistent to see results!", and a rejected request gives
    "Great job logging in today. Let's crush some goals!"; [fetchInsight]
    shows exactly that string and leaves the loading flag off. *)
Theorem insight_is_never_empty
    (reply : completion GenerateContentResponse) (s : DashboardView.State) :
  (exists t, DashboardView.generateDashboardInsight reply = Normal t
             /\ t <> EmptyString)
  /\ (forall response t,
        reply = Normal response -> response_text response = Some t ->
        t <> EmptyString ->
        DashboardView.generateDashboardInsight reply = Normal t)
  /\ (forall response,
        reply = Normal response ->
        response_text response = None
        \/ response_text response = Some EmptyString ->
        DashboardView.generateDashboardInsight reply
        = Normal "Stay consistent to see results!"%string)
  /\ (forall e,
        reply = Throw e ->
        DashboardView.generateDashboardInsight reply
        = Normal "Great job logging in today. Let's crush some goals!"%string)
  /\ DashboardView.generateDashboardInsight reply
     = Normal (DashboardView.aiInsight (DashboardView.fetchInsight reply s))
  /\ DashboardView.aiInsight (DashboardView.fetchInsight reply s) <> EmptyString
  /\ DashboardView.isAiLoading (DashboardView.fetchInsight reply s) = false.
Proof.
  assert (exists t, DashboardView.generateDashboardInsight reply = Normal t
                    /\ t <> EmptyString) as Hne.
  { unfold DashboardView.generateDashboardInsight.
    destruct reply as [response|e]; simpl; [|by eexists].
    destruct (falsy (response_text response)) eqn:Hf; [by eexists|].
    destruct (falsy_false_text _ Hf) as (t & -> & Ht). by exists t. }
  split; [exact Hne|].
  split; [|split; [|split; [|split; [|split; [|reflexivity]]]]].
  - intros response t -> Ht Hnonempty.
    unfold DashboardView.generateDashboardInsight. simpl. rewrite Ht. simpl.
    by destruct (String.eqb_spec t EmptyString).
  - intros response -> [Ht | Ht];
      unfold DashboardView.generateDashboardInsight; simpl; by rewrite Ht.
  - by intros e ->.
  - destruct Hne as (t & Hrun & Ht).
    unfold DashboardView.fetchInsight. simpl. by rewrite Hrun.
  - destruct Hne as (t & Hrun & Ht).
    unfold DashboardView.fetchInsight. simpl. by rewrite Hrun.
Qed.

Lemma index_last {A} (l : list A) :
  index l (Z.of_nat (length l) - 1) = last l.
Proof.
  unfold index. destruct l as [|a l]; [reflexivity|].
  destruct (Z.ltb_spec (Z.of_nat (length (a :: l)) - 1) 0) as [Hlt|_];
    [simpl in Hlt; lia|].
  replace (Z.to_nat (Z.of_nat (length (a :: l)) - 1)) with (length l)
    by (simpl; lia).
  rewrite last_lookup. reflexivity.
Qed.

(** X14.  [getFitnessCoaching] never throws, and the only way it returns
    the empty string is a history whose last message comes from the model
    (with the chat created successfully); after a user message the reply
    is never empty. *)
Theorem coaching_is_empty_only_after_model
    (created : completion unit) (reply : completion GenerateContentResponse)
    (history : list ChatMessage) (userContext : string) :
  exists t,
    getFitnessCoaching created reply history userContext = Normal t
    /\ (t = EmptyString <->
        exists u m, created = Normal u /\ last history = Some m
                    /\ role m = role_model).
Proof.
  unfold getFitnessCoaching. rewrite index_last.
  destruct created as [[]|e]; simpl.
  2:{ eexists. split; [reflexivity|]. split; [discriminate|].
      intros (u & m & Hc & _). discriminate Hc. }
  destruct (last history) as [m|]; simpl.
  2:{ eexists. split; [reflexivity|]. split; [discriminate|].
      intros (u & m & _ & Hl & _). discriminate Hl. }
  destruct (role m) eqn:Hrole; simpl.
  - assert (forall t : string, t <> EmptyString ->
              t = EmptyString <->
              exists u m0, Normal tt = Normal u /\ Some m = Some m0
                           /\ role m0 = role_model) as Hno.
    { intros t Ht. split; [done|]. intros (u & m0 & _ & [= <-] & Hr). congruence. }
    destruct reply as [result|e]; simpl.
    + destruct (falsy (response_text result)) eqn:Hf.
      * eexists. split; [reflexivity|]. by apply Hno.
      * destruct (falsy_false_text _ Hf) as (t & -> & Ht).
        exists t. split; [reflexivity|]. by apply Hno.
    + eexists. split; [reflexivity|]. by apply Hno.
  - exists EmptyString. split; [reflexivity|]. split; [|done].
    intros _. by exists tt, m.
Qed.

Lemma coaching_after_user
    (created : completion unit) (reply : completion GenerateContentResponse)
    (history : list ChatMessage) (userContext : string) (m : ChatMessage) :
  last history = Some m -> role m = role_user ->
  exists t,
    getFitnessCoaching created reply history userContext = Normal t
    /\ t <> EmptyString.
Proof.
  intros Hlast Hrole. unfold getFitnessCoaching.
  rewrite index_last, Hlast.
  destruct created as [[]|e]; simpl; [|by eexists].
  rewrite Hrole. destruct reply as [result|e]; simpl; [|by eexists].
  destruct (falsy (response_text result)) eqn:Hf; [by eexists|].
  destruct (falsy_false_text _ Hf) as (t & -> & Ht). by exists t.
Qed.

Section Send.

Variable trim : string -> string.

(** X15.  Sending a blank input changes nothing.  Any other input appends
    exactly two messages to the conversation, the user's text followed by
    a model message whose text is not empty, clears the input box and
    ends with the loading flag off. *)
Theorem send_appends_one_exchange
    (created : completion unit) (reply : completion GenerateContentResponse)
    (userContext : string) (t1 t2 t3 t4 : Z) (s : AICoach.State) :
  let s' := AICoach.handleSend trim created reply userContext t1 t2 t3 t4 s in
  (trim (AICoach.input s) = EmptyString -> s' = s)
  /\ (trim (AICoach.input s) <> EmptyString ->
      exists answer,
        answer <> EmptyString
        /\ AICoach.messages s'
           = AICoach.messages s
             ++ [ {| cm_id := pretty t1; role := role_user;
                     text := AICoach.input s; cm_timestamp := t2 |};
                  {| cm_id := pretty (t3 + 1)%Z; role := role_model;
                     text := answer; cm_timestamp := t4 |} ]
        /\ AICoach.input s' = EmptyString
        /\ AICoach.isLoading s' = false).
Proof.
  intros s'. subst s'. unfold AICoach.handleSend. split.
  - intros ->. reflexivity.
  - intros Hinput.
    destruct (String.eqb_spec (trim (AICoach.input s)) EmptyString); [done|].
    set (userMsg := {| cm_id := pretty t1; role := role_user;
                       text := AICoach.input s; cm_timestamp := t2 |}).
    destruct (coaching_after_user created reply
                (AICoach.messages s ++ [userMsg]) userContext userMsg
                (last_snoc _ _) eq_refl) as (t & -> & Ht).
    exists t. split; [exact Ht|].
    simpl. rewrite <- app_assoc. done.
Qed.

End Send.

(** X16.  A device sync always ends connected and not scanning.  The
    first one installs 5432 steps and 78 bpm; a later one, with both
    readings of [Math.random()] in [0, 1), never lowers the step count,
    raises it by at most 499, and sets a heart rate between 60 and 99;
    the step total shown is then positive. *)
Theorem sync_stays_in_range (r1 r2 : number) (s : DashboardView.State) :
  0 <= r1 /\ r1 < 1 -> 0 <= r2 /\ r2 < 1 ->
  let s' := DashboardView.handleBluetoothSync r1 r2 s in
  DashboardView.isScanning s' = false
  /\ DashboardView.isConnected s' = true
  /\ (DashboardView.isConnected s = false ->
      DashboardView.deviceSteps s' = 5432%Z /\ DashboardView.heartRate s' = 78%Z)
  /\ (DashboardView.isConnected s = true ->
      (DashboardView.deviceSteps s ≤ DashboardView.deviceSteps s'
       ≤ DashboardView.deviceSteps s + 499)%Z
      /\ (60 ≤ DashboardView.heartRate s' ≤ 99)%Z)
  /\ ((0 ≤ DashboardView.deviceSteps s)%Z ->
      (0 < DashboardView.totalSteps s')%Z).
Proof.
  intros [Hr1 Hr1'] [Hr2 Hr2'] s'. subst s'.
  assert (forall r k : Z, forall q : number,
            0 <= q -> q < 1 -> r = Math_floor (q * inject_Z k) -> (0 < k)%Z ->
            (0 ≤ r ≤ k - 1)%Z) as Hfloor.
  { intros r k q Hq Hq' -> Hk. unfold Math_floor.
    assert (0 < inject_Z k) as Hk'.
    { change 0 with (inject_Z 0). by rewrite <- Zlt_Qlt. }
    split.
    - rewrite <- (Qfloor_Z 0). apply Qfloor_resp_le.
      change (inject_Z 0) with 0. by apply Qmult_le_0_compat; [|apply Qlt_le_weak].
    - pose proof (Qfloor_le (q * inject_Z k)) as Hlo.
      pose proof (Qmult_lt_compat_r q 1 (inject_Z k) Hk' Hq') as Hlt.
      rewrite Qmult_1_l in Hlt.
      assert (inject_Z (Qfloor (q * inject_Z k)) < inject_Z k) as Hz
        by (eapply Qle_lt_trans; eassumption).
      rewrite <- Zlt_Qlt in Hz. lia. }
  pose proof (Hfloor _ 500%Z r2 Hr2 Hr2' eq_refl eq_refl) as H500.
  pose proof (Hfloor _ 40%Z r1 Hr1 Hr1' eq_refl eq_refl) as H40.
  change (inject_Z 500) with 500 in H500. change (inject_Z 40) with 40 in H40.
  unfold DashboardView.handleBluetoothSync, DashboardView.syncTimeout,
    DashboardView.totalSteps.
  unfold DashboardView.syncClicked.
  destruct (DashboardView.isConnected s) eqn:Hc;
    cbn [DashboardView.isScanning DashboardView.isConnected
         DashboardView.deviceSteps DashboardView.heartRate];
    rewrite ?Hc.
  - split; [reflexivity|]. split; [reflexivity|]. split; [discriminate|].
    split; [intros _; lia|]. intros Hsteps.
    destruct (Z.eqb_spec (DashboardView.deviceSteps s + Math_floor (r2 * 500)) 0);
      lia.
  - split; [reflexivity|]. split; [reflexivity|]. split; [done|].
    split; [discriminate|]. intros _. reflexivity.
Qed.

End FallbackFacts.

(** ** Generating a workout *)

Section GenerateFacts.
Import GeminiService Failure Workout Logger.

Variable JSON_parse : string -> completion value.

Lemma plan_on_failure (reply : completion GenerateContentResponse) :
  service_failure JSON_parse reply ->
  generateWorkoutPlan JSON_parse reply = Normal fallbackPlan.
Proof.
  intros [e | response Hfalsy | response text e Htext Hparse];
    unfold generateWorkoutPlan; simpl.
  - reflexivity.
  - destruct (response_text response); [by rewrite Hfalsy | reflexivity].
  - rewrite Htext. destruct (falsy (Some text)); [reflexivity|].
    by rewrite Hparse.
Qed.

Lemma plan_never_throws (reply : completion GenerateContentResponse) (e : exn) :
  generateWorkoutPlan JSON_parse reply <> Throw e.
Proof.
  unfold generateWorkoutPlan.
  destruct reply as [response|e']; simpl; [|discriminate].
  destruct (response_text response) as [text|]; [|discriminate].
  destruct (falsy (Some text)); [discriminate|].
  destruct (JSON_parse text); discriminate.
Qed.

(** X17.  When plan generation fails, the generate button still takes the
    user into a complete logging session: the fallback name and strategy,
    the three fallback exercises (not completed, weight 0), the timer
    started at zero, no alert; finishing it at once is permitted and
    records one minute and 65 calories. *)
Theorem failed_generation_starts_fallback_session
    (reply : completion GenerateContentResponse) (fresh : nat -> string)
    (v : View) (app : App.State) (idNow dateNow : Z) :
  service_failure JSON_parse reply ->
  exists v',
    handleGenerateWorkout JSON_parse reply fresh v = Some v'
    /\ logger v'
       = {| isLogging := true;
            currentSessionName := "Quick HIIT Blast";
            currentGoal := EmptyString;
            goalAchievedFlag := false;
            currentExercises :=
              [ {| ex_id := fresh 0%nat; ex_name := "Jumping Jacks"; sets := 3;
                   reps := 30; ex_weight := 0; completed := false |};
                {| ex_id := fresh 1%nat; ex_name := "Pushups"; sets := 3;
                   reps := 10; ex_weight := 0; completed := false |};
                {| ex_id := fresh 2%nat; ex_name := "Squats"; sets := 3;
                   reps := 15; ex_weight := 0; completed := false |} ];
            aiStrategy := Some "Fallback routine to keep you moving."%string;
            elapsedSeconds := 0;
            isTimerRunning := true |}
    /\ isGenerating v' = false
    /\ alerts v' = alerts v
    /\ exists session,
         App.workouts (finishSession idNow dateNow (logger v', app)).2
         = session :: App.workouts app
         /\ name session = "Quick HIIT Blast"%string
         /\ durationMinutes session = 1
         /\ caloriesBurned session = 65.
Proof.
  intros Hfail. unfold handleGenerateWorkout.
  rewrite (plan_on_failure reply Hfail).
  eexists. split; [reflexivity|]. split; [reflexivity|].
  split; [reflexivity|]. split; [reflexivity|].
  eexists. split; [reflexivity|]. repeat split; reflexivity.
Qed.

Lemma mapExercises_typed (fresh : nat -> string) (items : list value)
    (exs : list Exercise) :
  mapExercises fresh items = Some (Normal exs) ->
  Forall2 (fun p e => mapExercise (fresh p.1) p.2 = Some e)
    (imap (fun i item => (i, item)) items) exs.
Proof.
  unfold mapExercises. destruct (existsb nullish items); [discriminate|].
  destruct (mapM _ _) as [mapped|] eqn:Hmap; [|discriminate].
  intros [= <-]. by apply mapM_Some.
Qed.

(** X21.  Mapping the exercises of a plan keeps their number and order:
    the i-th logged exercise comes from the i-th plan entry, takes its
    name, sets and reps, uses the suggested weight as its weight, gets the
    i-th fresh identifier and starts not completed.  With such a plan the
    handler enters a logging session named after the plan, holding exactly
    these exercises, and raises no alert. *)
Theorem generated_plan_populates_session
    (reply : completion GenerateContentResponse) (fresh : nat -> string)
    (v : View) (props : list (string * value)) (n st : string)
    (items : list value) (exs : list Exercise) :
  generateWorkoutPlan JSON_parse reply = Normal (VObject props) ->
  own_property props "workoutName" = VString n ->
  own_property props "strategy" = VString st ->
  own_property props "exercises" = VArray items ->
  mapExercises fresh items = Some (Normal exs) ->
  handleGenerateWorkout JSON_parse reply fresh v
  = Some {| logger :=
              {| isLogging := true; currentSessionName := n;
                 currentGoal := EmptyString; goalAchievedFlag := false;
                 currentExercises := exs; aiStrategy := Some st;
                 elapsedSeconds := 0; isTimerRunning := true |};
            isGenerating := false; alerts := alerts v |}
  /\ length exs = length items
  /\ forall i e,
       exs !! i = Some e ->
       ex_id e = fresh i /\ completed e = false
       /\ exists entry,
            items !! i = Some (VObject entry)
            /\ own_property entry "name" = VString (ex_name e)
            /\ own_property entry "sets" = VNumber (sets e)
            /\ own_property entry "reps" = VNumber (reps e)
            /\ own_property entry "weightSuggestion" = VNumber (ex_weight e).
Proof.
  intros Hplan Hname Hstrategy Hexercises Hmap.
  pose proof (mapExercises_typed fresh items exs Hmap) as Htyped.
  split; [|split].
  - unfold handleGenerateWorkout. rewrite Hplan. simpl.
    rewrite Hname, Hstrategy, Hexercises. simpl. rewrite Hmap. reflexivity.
  - apply Forall2_length in Htyped. by rewrite length_imap in Htyped.
  - intros i e Hi.
    destruct (Forall2_lookup_r _ _ _ i e Htyped Hi) as ([j item] & Hitem & Hdec).
    rewrite list_lookup_imap in Hitem.
    destruct (items !! i) as [item'|] eqn:Hlook; [|discriminate].
    simpl in Hitem. injection Hitem as <- <-. simpl in Hdec.
    unfold mapExercise in Hdec.
    destruct item' as [| | | | | |entry]; try discriminate.
    destruct (own_property entry "name") as [| | | |nm| |] eqn:Hn; try discriminate.
    destruct (own_property entry "sets") as [| | |ns| | |] eqn:Hs; try discriminate.
    destruct (own_property entry "reps") as [| | |nr| | |] eqn:Hr; try discriminate.
    destruct (own_property entry "weightSuggestion") as [| | |nw| | |] eqn:Hw;
      try discriminate.
    simpl in Hdec. injection Hdec as <-. simpl.
    split; [reflexivity|]. split; [reflexivity|]. by exists entry.
Qed.

(** X18.  Whatever the service answers, once the handler has run the
    generating flag is off and the user is in a started logging session
    with the timer running from zero; if the plan was reported as failed
    by an alert, that session has no exercises. *)
Theorem generation_always_enters_logging
    (reply : completion GenerateContentResponse) (fresh : nat -> string)
    (v v' : View) :
  handleGenerateWorkout JSON_parse reply fresh v = Some v' ->
  isGenerating v' = false
  /\ isLogging (logger v') = true
  /\ isTimerRunning (logger v') = true
  /\ elapsedSeconds (logger v') = 0%Z
  /\ (alerts v' = alerts v
      \/ (alerts v' = "Could not generate plan. Please try again."%string :: alerts v
          /\ currentExercises (logger v') = [])).
Proof.
  unfold handleGenerateWorkout.
  destruct (generateWorkoutPlan JSON_parse reply) as [plan|e] eqn:Hplan;
    [|by apply plan_never_throws in Hplan].
  intros Hrun.
  repeat (case_match; simplify_option_eq; try done);
    simpl; repeat split; auto.
Qed.

End GenerateFacts.

(** ** The clock face *)

Lemma formatTime_checked :
  forallb (fun t => String.eqb (Logger.formatTime t) (ClockFace.render t))
    (seqZ 0 6000) = true.
Proof. vm_compute. reflexivity. Qed.

(** X19.  For every session shorter than 100 minutes the timer shows five
    characters: the two decimal digits of the whole minutes, a colon, and
    the two decimal digits of the remaining seconds. *)
Theorem formatTime_is_two_digit_clock (totalSeconds : Z) :
  (0 ≤ totalSeconds < 6000)%Z ->
  Logger.formatTime totalSeconds = ClockFace.render totalSeconds
  /\ String.length (Logger.formatTime totalSeconds) = 5%nat.
Proof.
  intros Hrange.
  assert (Logger.formatTime totalSeconds = ClockFace.render totalSeconds) as Heq.
  { pose proof formatTime_checked as Hall.
    rewrite forallb_forall in Hall.
    apply String.eqb_eq, Hall, list_elem_of_In, elem_of_seqZ. lia. }
  split; [exact Heq|]. rewrite Heq. reflexivity.
Qed.

(** ** Onboarding *)

Section OnboardingFacts.
Import Onboarding.

Lemma truthyNumber_nonzero (n : option number) :
  truthyNumber n = true <-> exists q, n = Some q /\ ~ q == 0.
Proof.
  destruct n as [q|]; simpl.
  - rewrite negb_true_iff. split.
    + intros Hq. exists q. split; [reflexivity|].
      intros Heq. apply Qeq_bool_iff in Heq. congruence.
    + intros (q' & [= <-] & Hne).
      destruct (Qeq_bool q 0) eqn:E; [|reflexivity].
      apply Qeq_bool_iff in E. contradiction.
  - split; [discriminate|]. intros (q & Hq & _). discriminate Hq.
Qed.

(** X20.  Onboarding hands over a profile exactly when the name is
    non-empty and age, weight and height are nonzero numbers.  That profile
    copies the form, has a weight history of one entry, today's, at the
    current weight, and a nonzero height; the "New You" badge is locked
    for it whatever the workouts. *)
Theorem onboarding_profile (now : Z) (fd : FormData) :
  (is_Some (handleSubmit now fd) <->
     truthyString (fd_name fd) && truthyNumber (fd_age fd)
     && truthyNumber (fd_weight fd) && truthyNumber (fd_height fd) = true)
  /\ (forall p,
        handleSubmit now fd = Some p ->
        fd_name fd = Some (up_name p) /\ up_name p <> EmptyString
        /\ fd_age fd = Some (age p) /\ ~ age p == 0
        /\ fd_weight fd = Some (weight p) /\ ~ weight p == 0
        /\ fd_height fd = Some (height p) /\ ~ height p == 0
        /\ gender p = fd_gender fd /\ goal p = fd_goal fd
        /\ activityLevel p = fd_activityLevel fd
        /\ weightHistory p
           = [ {| we_date := Profile.isoDate now; we_weight := weight p |} ]
        /\ forall tz at_time workouts,
             Catalog.unlocked tz at_time "New You" p workouts = false).
Proof.
  unfold handleSubmit. split.
  - destruct (fd_name fd) as [n|], (fd_age fd) as [a|], (fd_weight fd) as [w|],
      (fd_height fd) as [h|]; simpl;
      repeat (match goal with
              | |- context [negb (String.eqb ?x ?y)] => destruct (String.eqb x y)
              | |- context [negb (Qeq_bool ?x ?y)] => destruct (Qeq_bool x y)
              end; simpl);
      split; intros H; try done; try (by eexists); by destruct H.
  - intros p Hp.
    destruct (fd_name fd) as [n|] eqn:Hn; [|discriminate].
    destruct (fd_age fd) as [a|] eqn:Ha; [|discriminate].
    destruct (fd_weight fd) as [w|] eqn:Hw; [|discriminate].
    destruct (fd_height fd) as [h|] eqn:Hh; [|discriminate].
    destruct (truthyString (Some n) && truthyNumber (Some a)
              && truthyNumber (Some w) && truthyNumber (Some h)) eqn:Hall;
      [|discriminate].
    injection Hp as <-. simpl.
    apply andb_true_iff in Hall as [Hall Hth].
    apply andb_true_iff in Hall as [Hall Htw].
    apply andb_true_iff in Hall as [Htn Hta].
    apply truthyNumber_nonzero in Hth as (? & [= <-] & Hh0).
    apply truthyNumber_nonzero in Htw as (? & [= <-] & Hw0).
    apply truthyNumber_nonzero in Hta as (? & [= <-] & Ha0).
    simpl in Htn. apply negb_true_iff in Htn.
    repeat split; try done.
    + intros ->. discriminate Htn.
    + intros tz at_time workouts. unfold Catalog.unlocked. simpl.
      apply Qle_bool_false. unfold number in *. lra.
Qed.

End OnboardingFacts.

(** ** A finished session and the streak *)

Section StreakGrowth.
Import Profile Workout.

Lemma streak_after_run (tz : TimeZone) (now : Z) (workouts : list WorkoutSession)
    (k : nat) :
  Spec.fixed_offset tz ->
  Spec.most_recent_day workouts (isoDate now) ->
  Spec.consecutive_run workouts (isoDate now) k ->
  calculateStreak tz now workouts = k.
Proof.
  intros Hfixed Hm Hrun.
  apply (consecutive_run_unique workouts (isoDate now)); [|exact Hrun].
  apply (streak_of_history tz now workouts _ Hfixed Hm). by left.
Qed.

(** X22.  In a zone whose offset never changes, logging a session today
    never lowers the streak and raises it by at most one: with no stored
    session dated after today, the streak shown today after a permitted
    finish is the old streak or the old streak plus one. *)
Theorem finish_raises_streak_by_at_most_one
    (tz : TimeZone) (idNow dateNow now : Z) (w : State) (app : App.State) :
  Spec.fixed_offset tz ->
  isoDate dateNow = isoDate now ->
  currentSessionName w <> EmptyString -> currentExercises w <> [] ->
  (forall s, s ∈ App.workouts app -> (isoDate (date s) ≤ isoDate now)%Z) ->
  let before := calculateStreak tz now (App.workouts app) in
  let after :=
    calculateStreak tz now
      (App.workouts (finishSession idNow dateNow (w, app)).2) in
  (before <= after <= before + 1)%nat.
Proof.
  intros Hfixed Htoday Hname Hexs Hpast before after. subst before after.
  rewrite (finishSession_permitted idNow dateNow w app Hname Hexs).
  revert Hpast. generalize (App.workouts app). intros ws Hpast.
  set (new := Invariants.finishedSession idNow dateNow w).
  assert (isoDate (date new) = isoDate now) as Hnew_day by exact Htoday.
  assert (forall d, Spec.workout_day (new :: ws) d <->
                    d = isoDate now \/ Spec.workout_day ws d) as Hdays.
  { intros d. unfold Spec.workout_day. split.
    - intros (s & Hin & <-). apply elem_of_cons in Hin as [-> | Hin];
        [by left | right; by exists s].
    - intros [-> | (s & Hin & <-)].
      + exists new. split; [by left | exact Hnew_day].
      + exists s. split; [by right | reflexivity]. }
  assert (Spec.most_recent_day (new :: ws) (isoDate now)) as Hnew.
  { split; [apply Hdays; by left|].
    intros d [-> | (s & Hin & <-)]%Hdays; [reflexivity | by apply Hpast]. }
  destruct (decide (ws = [])) as [Hempty | Hne].
  { subst ws. change (calculateStreak tz now []) with 0%nat.
    rewrite (streak_after_run tz now [new] 1 Hfixed Hnew); [lia|].
    split.
    - intros j Hj. assert (j = 0%nat) as -> by lia.
      rewrite Z.sub_0_r. exists new. split; [by left | exact Hnew_day].
    - intros (s & Hin & Heq). apply list_elem_of_singleton in Hin as ->.
      rewrite Hnew_day in Heq. simpl in Heq. lia. }
  destruct (most_recent_day_exists ws Hne) as [m Hm].
  assert (m ≤ isoDate now)%Z as Hle.
  { destruct Hm as [(s & Hin & <-) _]. by apply Hpast. }
  pose proof (streak_stale tz now ws m Hm) as Hstale.
  pose proof (streak_of_history tz now ws m Hfixed Hm) as Halive.
  destruct (decide (m = isoDate now)) as [-> | Hnot_today].
  - destruct (Halive (or_introl eq_refl)) as [Hrun Hgap].
    rewrite (streak_after_run tz now (new :: ws) (calculateStreak tz now ws)
               Hfixed Hnew); [lia|].
    split.
    + intros j Hj. apply Hdays. right. by apply Hrun.
    + intros [Heq | Hd]%Hdays; [|by apply Hgap].
      apply Hgap. rewrite Heq. apply Hm.
  - destruct (decide (m = (isoDate now - 1)%Z)) as [-> | Hnot_yesterday].
    + destruct (Halive (or_intror eq_refl)) as [Hrun Hgap].
      rewrite (streak_after_run tz now (new :: ws)
                 (S (calculateStreak tz now ws)) Hfixed Hnew); [lia|].
      split.
      * intros j Hj. apply Hdays. destruct j as [|j]; [left; lia|].
        right. replace (isoDate now - Z.of_nat (S j))%Z
          with (isoDate now - 1 - Z.of_nat j)%Z by lia.
        apply Hrun. lia.
      * intros [Heq | Hd]%Hdays; [lia|].
        apply Hgap.
        replace (isoDate now - 1 - Z.of_nat (calculateStreak tz now ws))%Z
          with (isoDate now - Z.of_nat (S (calculateStreak tz now ws)))%Z by lia.
        exact Hd.
    + rewrite Hstale by done.
      rewrite (streak_after_run tz now (new :: ws) 1 Hfixed Hnew); [lia|].
      split.
      * intros j Hj. assert (j = 0%nat) as -> by lia.
        rewrite Z.sub_0_r. apply Hdays. by left.
      * intros [Heq | Hd]%Hdays; [lia|].
        destruct Hm as [_ Hmax]. specialize (Hmax _ Hd). lia.
Qed.

End StreakGrowth.

(** ** The further properties on concrete inputs *)

Section Scenes.
Import GeminiService Failure Samples Scenarios.

Lemma streak_depends_on_days_only_witness :
  Profile.calculateStreak Zones.newYork2024 noon history
  = Profile.calculateStreak Zones.newYork2024 noon shuffledHistory.
Proof.
  apply streak_depends_on_days_only. intros d. unfold Spec.workout_day.
  split; intros (w & Hin & Hd); exists w; (split; [|exact Hd]);
    unfold history, shuffledHistory in *;
    repeat (apply elem_of_cons in Hin as [-> | Hin]);
    try (by apply elem_of_nil in Hin);
    repeat ((by left) || right).
Defined.

Lemma november4_is_most_recent :
  Spec.most_recent_day novemberHistory (Profile.isoDate november4).
Proof.
  split.
  - eexists. split; [by left | vm_compute; reflexivity].
  - intros d (w & Hin & <-). unfold novemberHistory in Hin.
    repeat (apply elem_of_cons in Hin as [-> | Hin]);
      [| | |by apply elem_of_nil in Hin]; vm_compute; discriminate.
Qed.

Lemma streak_alive_and_bounded_witness :
  (1 <= Profile.calculateStreak Zones.newYork2024 november4 novemberHistory)%nat.
Proof.
  apply (proj2 (streak_alive_and_bounded Zones.newYork2024 november4
                  novemberHistory) newYork_keeps_midnights).
  exists (Profile.isoDate november4).
  split; [exact november4_is_most_recent | by left].
Defined.

Lemma stored_before_noon (s : WorkoutSession) :
  s ∈ App.workouts twoSessions ->
  (Profile.isoDate (date s) ≤ Profile.isoDate (noon + 1))%Z.
Proof.
  intros Hin. unfold twoSessions in Hin. simpl in Hin.
  repeat (apply elem_of_cons in Hin as [-> | Hin]);
    [| |by apply elem_of_nil in Hin]; vm_compute; discriminate.
Qed.

Lemma finish_keeps_streak_alive_witness :
  (1 <= Profile.calculateStreak Zones.newYork2024 (noon + day)
          (App.workouts
             (Workout.finishSession noon (noon + 1)
                (logging_125, twoSessions)).2))%nat.
Proof.
  apply (finish_keeps_streak_alive Zones.newYork2024 noon (noon + 1) (noon + day)
           logging_125 twoSessions profile_18_5 newYork_keeps_midnights).
  - discriminate.
  - discriminate.
  - exact stored_before_noon.
  - right. reflexivity.
Defined.

Lemma finish_raises_streak_by_at_most_one_witness :
  (Profile.calculateStreak Zones.utc (noon + 2) (App.workouts twoSessions)
   <= Profile.calculateStreak Zones.utc (noon + 2)
        (App.workouts
           (Workout.finishSession noon (noon + 1) (logging_125, twoSessions)).2)
   <= Profile.calculateStreak Zones.utc (noon + 2) (App.workouts twoSessions) + 1)%nat.
Proof.
  apply (finish_raises_streak_by_at_most_one Zones.utc noon (noon + 1) (noon + 2)
           logging_125 twoSessions utc_fixed_offset).
  - reflexivity.
  - discriminate.
  - discriminate.
  - exact stored_before_noon.
Defined.

Lemma streak_in_fixed_offset_zone_witness :
  Profile.calculateStreak Zones.utc noon
    [session_at "c" noon [press]; session_at "b" (noon - day) [curl];
     session_at "a" (noon - 2 * day) [curl]] = 3%nat.
Proof.
  apply (streak_in_fixed_offset_zone Zones.utc noon _ utc_fixed_offset).
  intros d. unfold Spec.workout_day. split.
  - intros (w & Hin & <-).
    repeat (apply elem_of_cons in Hin as [-> | Hin]);
      [left | right; left | right; right | by apply elem_of_nil in Hin];
      reflexivity.
  - intros [-> | [-> | ->]].
    + exists (session_at "c" noon [press]). split; [by left | reflexivity].
    + exists (session_at "b" (noon - day) [curl]).
      split; [right; by left | reflexivity].
    + exists (session_at "a" (noon - 2 * day) [curl]).
      split; [right; right; by left | reflexivity].
Defined.

Lemma first_finish_is_built :
  Invariants.built
    (Workout.finishSession noon (noon + 1) (logging_125, emptyStore)).2.
Proof.
  apply (Invariants.built_finish noon (noon + 1) logging_125 emptyStore).
  - apply Invariants.built_empty.
  - lia.
  - intros s Hin. by apply elem_of_nil in Hin.
Defined.

Lemma built_store_invariant_witness :
  NoDup (id <$> App.workouts (Workout.finishSession noon (noon + 1) (logging_125, emptyStore)).2).
Proof.
  apply (built_store_invariant _ first_finish_is_built).
Defined.

Lemma totals_bounded_below_witness :
  25 * inject_Z (Z.of_nat (length
         (App.workouts (Workout.finishSession noon (noon + 1) (logging_125, emptyStore)).2)))
  <= DashboardView.totalCaloriesBurned
       (App.workouts (Workout.finishSession noon (noon + 1) (logging_125, emptyStore)).2).
Proof.
  apply (totals_bounded_below _ first_finish_is_built).
Defined.

Lemma toggle_goal_flag_witness :
  App.workouts (Logger.toggleGoalAchieved tuesday twoSessions)
  = [Invariants.flipped tuesday; monday].
Proof.
  assert (NoDup (id <$> App.workouts twoSessions)) as Hnd.
  { apply NoDup_cons. split.
    - intros Hin. apply list_elem_of_singleton in Hin. discriminate Hin.
    - apply NoDup_singleton. }
  destruct (toggle_goal_flag twoSessions tuesday 0 Hnd eq_refl) as [-> _].
  reflexivity.
Defined.

Lemma analysed_meal_is_saved_once_witness :
  exists s1 s2 meal,
    Nutrition.handleFileSelect JSON_parse_braces (Some photo) (Some dataUrl)
      reply_braces (idleNutrition, emptyStore) = Normal (s1, emptyStore)
    /\ Nutrition.handleSaveMeal noon (noon + 1) (s1, emptyStore)
       = (s2, App.handleAddMeal meal emptyStore)
    /\ imageUrl meal = Some dataUrl.
Proof.
  destruct (analysed_meal_is_saved_once JSON_parse_braces photo dataUrl
              reply_braces undefinedAnalysis idleNutrition emptyStore
              noon (noon + 1)%Z (noon + 2)%Z (noon + 3)%Z eq_refl)
    as (s1 & s2 & Hselect & _ & _ & Hsave & _).
  - discriminate.
  - exists s1, s2. eexists. split; [exact Hselect|].
    split; [exact Hsave | reflexivity].
Defined.

Lemma sync_stays_in_range_witness :
  (60 ≤ DashboardView.heartRate
          (DashboardView.handleBluetoothSync 0.5%Q 0.25%Q connectedDashboard) ≤ 99)%Z.
Proof.
  assert (0 <= 0.5 /\ 0.5 < 1) as H1 by (split; vm_compute; congruence).
  assert (0 <= 0.25 /\ 0.25 < 1) as H2 by (split; vm_compute; congruence).
  destruct (sync_stays_in_range 0.5 0.25 connectedDashboard H1 H2)
    as (_ & _ & _ & Hconnected & _).
  apply Hconnected. reflexivity.
Defined.

Lemma failed_generation_starts_fallback_session_witness :
  exists v',
    Logger.handleGenerateWorkout JSON_parse_braces offline numbered idleView
    = Some v'
    /\ Workout.currentSessionName (Logger.logger v') = "Quick HIIT Blast"%string.
Proof.
  destruct (failed_generation_starts_fallback_session JSON_parse_braces
              offline numbered idleView emptyStore noon (noon + 1)%Z)
    as (v' & Hrun & Hlogger & _).
  - apply transport_error.
  - exists v'. split; [exact Hrun|]. by rewrite Hlogger.
Defined.

Lemma generation_always_enters_logging_witness :
  exists v',
    Logger.handleGenerateWorkout JSON_parse_braces offline numbered idleView
    = Some v'
    /\ Workout.isLogging (Logger.logger v') = true.
Proof.
  destruct (Logger.handleGenerateWorkout JSON_parse_braces offline
              numbered idleView) as [v'|] eqn:Hrun.
  - exists v'. split; [reflexivity|].
    apply (generation_always_enters_logging JSON_parse_braces offline
             numbered idleView v' Hrun).
  - exfalso. vm_compute in Hrun. discriminate Hrun.
Defined.

Lemma generated_plan_populates_session_witness :
  exists v',
    Logger.handleGenerateWorkout JSON_parse_braces offline numbered idleView
    = Some v'
    /\ length (Workout.currentExercises (Logger.logger v')) = 3%nat.
Proof.
  eexists. split.
  - apply (generated_plan_populates_session JSON_parse_braces offline numbered
             idleView _ _ _ _ _ eq_refl eq_refl eq_refl eq_refl eq_refl).
  - reflexivity.
Defined.

Lemma formatTime_is_two_digit_clock_witness :
  Logger.formatTime 125 = "02:05"%string.
Proof.
  rewrite (proj1 (formatTime_is_two_digit_clock 125 ltac:(lia))).
  reflexivity.
Defined.

End Scenes.
